(** * mcp-roblox-demo: the request / poll workflow of [server.py]

    A shallow embedding of [src/mcp_roblox_demo/server.py]:
    [make_roblox_request] (the request executor), [poll_for_results]
    (the operation poller) and [update_script] (the tool handler).

    Python values are the values [response.json()] can produce.  The
    coroutines run one after the other on a single task, so [await] is
    sequencing: a computation is a function from the world it starts in
    to its outcome (a returned value or a raised exception) and the world
    it leaves.  The world records what the code does to its surroundings:
    the HTTP requests it sends, the delays it sleeps and the lines it
    prints; and it holds what the surroundings answer: the process
    environment and the remote service. *)

From Stdlib Require Import ZArith List String Ascii Bool Lia.
From Stdlib Require Import SpecFloat DecimalString.
Import ListNotations.
Open Scope string_scope.
Open Scope Z_scope.

(** ** Python values *)

Module Py.

(** What [json.loads] builds: [None], [bool], [int], [float], [str],
    [list] and [dict] with [str] keys (kept in insertion order). *)
#[warnings="-register-all"]
Inductive pyval : Type :=
| PNone
| PBool (b : bool)
| PInt (z : Z)
| PFloat (f : spec_float)
| PStr (s : string)
| PList (l : list pyval)
| PDict (items : list (string * pyval)).

(** The exceptions that occur; all of them derive from [Exception]. *)
Inductive exn : Type :=
| ValueError (msg : string)
| AttributeError (msg : string)
| TypeError (msg : string)
| KeyError (msg : string)
| JSONDecodeError (msg : string)
| TransportError (msg : string)       (* any fault raised by httpx while sending *)
| HTTPStatusError (status_code : Z) (text : string).

(** [bool(v)] *)
Definition truthy (v : pyval) : bool :=
  match v with
  | PNone => false
  | PBool b => b
  | PInt z => negb (z =? 0)
  | PFloat f => match f with S754_zero _ => false | _ => true end
  | PStr s => negb (s =? "")%string
  | PList l => match l with [] => false | _ => true end
  | PDict d => match d with [] => false | _ => true end
  end.

(** [v is None] *)
Definition is_None (v : pyval) : bool :=
  match v with PNone => true | _ => false end.

Definition type_name (v : pyval) : string :=
  match v with
  | PNone => "NoneType"
  | PBool _ => "bool"
  | PInt _ => "int"
  | PFloat _ => "float"
  | PStr _ => "str"
  | PList _ => "list"
  | PDict _ => "dict"
  end.

(** Lookup in a [dict]: the entry of the key, if any. *)
Fixpoint lookup (k : string) (d : list (string * pyval)) : option pyval :=
  match d with
  | [] => None
  | (k', v) :: d' => if (k' =? k)%string then Some v else lookup k d'
  end.

(** [d.get(key)]: the entry, or [None]. *)
Definition dict_get (d : list (string * pyval)) (key : string) : pyval :=
  match lookup key d with Some x => x | None => PNone end.

(** [str.upper()], on the ASCII letters.  The result is only ever compared
    with ["GET"] and ["PATCH"], and no character outside ASCII has an
    uppercase form among the letters of these two words. *)
Definition upper_ascii (c : ascii) : ascii :=
  let n := nat_of_ascii c in
  if ((97 <=? n) && (n <=? 122))%nat then ascii_of_nat (n - 32) else c.

Definition lower_ascii (c : ascii) : ascii :=
  let n := nat_of_ascii c in
  if ((65 <=? n) && (n <=? 90))%nat then ascii_of_nat (n + 32) else c.

Fixpoint upper (s : string) : string :=
  match s with
  | EmptyString => EmptyString
  | String c s' => String (upper_ascii c) (upper s')
  end.

(** [needle in haystack] for two [str]. *)
Fixpoint contains (needle haystack : string) : bool :=
  if prefix needle haystack then true
  else match haystack with
       | EmptyString => false
       | String _ h' => contains needle h'
       end.

(** [str(z)] for an [int]. *)
Definition str_int (z : Z) : string := NilZero.string_of_int (Z.to_int z).

End Py.
Export Py.

(** ** The world *)

Inductive http_method : Type := GET | PATCH.

(** One call of [client.get] or [client.patch], with its keyword arguments;
    [client.get] is given no [json]. *)
Record request : Type := mkRequest {
  req_method : http_method;
  req_url : string;
  req_headers : list (string * string);
  req_json : option pyval;
  req_timeout : Z
}.

(** An [httpx.Response]: its status, its raw text and what [response.json()]
    makes of that text (a decoding error or a value). *)
Record response : Type := mkResponse {
  status_code : Z;
  text : string;
  json : string + pyval
}.

(** What sending a request comes to: httpx raises (connection failure,
    timeout, ...) or hands back a response. *)
Inductive remote_behaviour : Type :=
| Fault (msg : string)
| Reply (r : response).

Record world : Type := mkWorld {
  environ : string -> option string;
  remote : list request -> request -> remote_behaviour;
  calls : list request;
  sleeps : list Z;
  stdout : list string
}.

(** ** Computations *)

Inductive outcome (A : Type) : Type :=
| Returned (a : A)
| Raised (e : exn).
Arguments Returned {A} a.
Arguments Raised {A} e.

Definition M (A : Type) : Type := world -> outcome A * world.

Definition ret {A} (a : A) : M A := fun w => (Returned a, w).

Definition raise {A} (e : exn) : M A := fun w => (Raised e, w).

Definition bind {A B} (m : M A) (k : A -> M B) : M B :=
  fun w => match m w with
           | (Returned a, w') => k a w'
           | (Raised e, w') => (Raised e, w')
           end.

(** [try: body except Exception as e: handler] *)
Definition try_except {A} (body : M A) (handler : exn -> M A) : M A :=
  fun w => match body w with
           | (Returned a, w') => (Returned a, w')
           | (Raised e, w') => handler e w'
           end.

Notation "x <- m ;; k" := (bind m (fun x => k))
  (at level 61, m at next level, right associativity).
Notation "m ;;; k" := (bind m (fun _ => k))
  (at level 61, right associativity).

(** [print(line)] *)
Definition print (line : string) : M unit :=
  fun w => (Returned tt,
            mkWorld (environ w) (remote w) (calls w) (sleeps w) (stdout w ++ [line])).

(** [await asyncio.sleep(delay)] *)
Definition sleep (delay : Z) : M unit :=
  fun w => (Returned tt,
            mkWorld (environ w) (remote w) (calls w) (sleeps w ++ [delay]) (stdout w)).

(** [os.getenv(name)] *)
Definition getenv (name : string) : M (option string) :=
  fun w => (Returned (environ w name), w).

(** [await client.get(...)] / [await client.patch(...)]: the request goes
    out, and the remote side answers knowing all that was sent before. *)
Definition send (r : request) : M response :=
  fun w =>
    let w' := mkWorld (environ w) (remote w) (calls w ++ [r]) (sleeps w) (stdout w) in
    match remote w (calls w) r with
    | Fault msg => (Raised (TransportError msg), w')
    | Reply resp => (Returned resp, w')
    end.

(** [response.raise_for_status()]: anything but a 2xx status raises. *)
Definition is_success (r : response) : bool :=
  (200 <=? status_code r) && (status_code r <=? 299).

Definition raise_for_status (r : response) : M unit :=
  if is_success r then ret tt
  else raise (HTTPStatusError (status_code r) (text r)).

(** [response.json()] *)
Definition response_json (r : response) : M pyval :=
  match json r with
  | inr v => ret v
  | inl msg => raise (JSONDecodeError msg)
  end.

(** [v.get(key)]: only a [dict] has the method. *)
Definition py_get (v : pyval) (key : string) : M pyval :=
  match v with
  | PDict d => ret (dict_get d key)
  | _ => raise (AttributeError
                  ("'" ++ type_name v ++ "' object has no attribute 'get'"))
  end.

(** [key in v], for a [str] key. *)
Definition py_in (key : string) (v : pyval) : M bool :=
  match v with
  | PDict d => ret (match lookup key d with Some _ => true | None => false end)
  | PList l => ret (existsb (fun x => match x with
                                      | PStr s => (s =? key)%string
                                      | _ => false
                                      end) l)
  | PStr s => ret (contains key s)
  | _ => raise (TypeError
                  ("argument of type '" ++ type_name v ++ "' is not iterable"))
  end.

(** [v[key]], for a [str] key. *)
Definition py_getitem (v : pyval) (key : string) : M pyval :=
  match v with
  | PDict d => match lookup key d with
               | Some x => ret x
               | None => raise (KeyError ("'" ++ key ++ "'"))
               end
  | PList _ => raise (TypeError "list indices must be integers or slices, not str")
  | PStr _ => raise (TypeError "string indices must be integers, not 'str'")
  | _ => raise (TypeError ("'" ++ type_name v ++ "' object is not subscriptable"))
  end.

(** ** The code *)

Definition ROBLOX_API_BASE : string := "https://apis.roblox.com/cloud/v2".

Section Server.

(** [repr(v)], Python's rendering of a value; the code only interpolates
    it into messages and URLs. *)
Variable py_repr : pyval -> string.

(** [str(v)], as an f-string field renders [v]. *)
Definition py_str (v : pyval) : string :=
  match v with
  | PStr s => s
  | _ => py_repr v
  end.

(** [make_roblox_request(api_key, method, url, data=None, is_polling=False)].
    The [httpx.AsyncClient] is opened and closed around the [try]; that alone
    sends nothing.  [is_polling] is not used by the body. *)
Definition make_roblox_request
    (api_key method url : string) (data : pyval) (is_polling : bool) : M pyval :=
  let headers := [("x-api-key", api_key); ("Content-Type", "application/json")] in
  try_except
    (response <-
       (if (upper method =? "GET")%string then
          send (mkRequest GET url headers None 30)
        else if (upper method =? "PATCH")%string then
          send (mkRequest PATCH url headers (Some data) 30)
        else
          raise (ValueError ("Unsupported HTTP method: " ++ method))) ;;
     raise_for_status response ;;;
     response_json response)
    (fun e =>
       match e with
       | HTTPStatusError c t =>
           print ("Roblox API Error: " ++ str_int c ++ " - " ++ t) ;;;
           ret PNone
       | ValueError m | AttributeError m | TypeError m | KeyError m
       | JSONDecodeError m | TransportError m =>
           print ("Error making Roblox API request: " ++ m) ;;;
           ret PNone
       end).

(** The body of [for _ in range(retries)], [n] iterations being left. *)
Fixpoint poll_loop (api_key url : string) (delay : Z) (n : nat) : M pyval :=
  match n with
  | O => ret PNone
  | S n' =>
      response_data <- make_roblox_request api_key "GET" url PNone true ;;
      cond <- (if truthy response_data then py_get response_data "done"
               else ret response_data) ;;
      if truthy cond then ret response_data
      else sleep delay ;;; poll_loop api_key url delay n'
  end.

(** [poll_for_results(api_key, operation_path, retries=10, delay=5)];
    [operation_path] arrives as [update_script] read it from the reply. *)
Definition poll_for_results
    (api_key : string) (operation_path : pyval) (retries delay : Z) : M pyval :=
  let url := ROBLOX_API_BASE ++ "/" ++ py_str operation_path in
  poll_loop api_key url delay (Z.to_nat retries).

(** The defaults [retries=10] and [delay=5], which [update_script] relies on. *)
Definition default_retries : Z := 10.
Definition default_delay : Z := 5.

(** The body of the PATCH: the new source under the [Script] details. *)
Definition patch_data (script_content : string) : pyval :=
  PDict [("engineInstance",
          PDict [("Details",
                  PDict [("Script",
                          PDict [("Source", PStr script_content)])])])].

(** The URL of the instance, the two numbers in decimal. *)
Definition instance_url (universe_id place_id : Z) (instance_id : string) : string :=
  ROBLOX_API_BASE ++ "/universes/" ++ str_int universe_id
    ++ "/places/" ++ str_int place_id ++ "/instances/" ++ instance_id.

(** The end of [update_script], from [if poll_result:] on: the message for
    what the poller returned. *)
Definition outcome_message (poll_result : pyval) : M string :=
  if truthy poll_result then
    done <- py_get poll_result "done" ;;
    if truthy done then
      has_response <- py_in "response" poll_result ;;
      if has_response then
        r <- py_getitem poll_result "response" ;;
        ret ("Script updated successfully! Final Response: " ++ py_str r)
      else
        has_error <- py_in "error" poll_result ;;
        if has_error then
          e <- py_getitem poll_result "error" ;;
          ret ("Script update failed. Error: " ++ py_str e)
        else
          ret "Script update operation completed, but no response data found."
    else
      ret "Script update operation did not complete within the allowed time."
  else
    ret "Error: Failed to poll for script update status.".

(** [update_script(universe_id, place_id, instance_id, script_content)];
    [not api_key] holds of [None] and of the empty string. *)
Definition update_script
    (universe_id place_id : Z) (instance_id script_content : string) : M string :=
  api_key <- getenv "ROBLOX_API_KEY" ;;
  match api_key with
  | None => ret "Error: Roblox Open Cloud API Key is required."
  | Some api_key =>
      if (api_key =? "")%string then
        ret "Error: Roblox Open Cloud API Key is required."
      else
        let url := instance_url universe_id place_id instance_id in
        patch_response <-
          make_roblox_request api_key "PATCH" url (patch_data script_content) false ;;
        if is_None patch_response then
          ret "Error: Failed to initiate script update."
        else
          operation_path <- py_get patch_response "path" ;;
          if negb (truthy operation_path) then
            ret "Error: Operation path not found in PATCH response."
          else
            poll_result <-
              poll_for_results api_key operation_path default_retries default_delay ;;
            outcome_message poll_result
  end.

End Server.

(** ** What one executor call comes to *)

Definition get_request (api_key url : string) : request :=
  mkRequest GET url
    [("x-api-key", api_key); ("Content-Type", "application/json")] None 30.

Definition patch_request (api_key url : string) (data : pyval) : request :=
  mkRequest PATCH url
    [("x-api-key", api_key); ("Content-Type", "application/json")] (Some data) 30.

(** The value the executor hands back for a behaviour of the remote side. *)
Definition executor_value (b : remote_behaviour) : pyval :=
  match b with
  | Fault _ => PNone
  | Reply r =>
      if is_success r then
        match json r with inr v => v | inl _ => PNone end
      else PNone
  end.

(** The diagnostic it prints, if any. *)
Definition executor_lines (b : remote_behaviour) : list string :=
  match b with
  | Fault msg => ["Error making Roblox API request: " ++ msg]
  | Reply r =>
      if is_success r then
        match json r with
        | inr _ => []
        | inl msg => ["Error making Roblox API request: " ++ msg]
        end
      else ["Roblox API Error: " ++ str_int (status_code r) ++ " - " ++ text r]
  end.

(** The world once request [r] is out and [lines] are printed. *)
Definition after_send (w : world) (r : request) (lines : list string) : world :=
  mkWorld (environ w) (remote w) (calls w ++ [r]) (sleeps w) (stdout w ++ lines).

Definition after_sleep (w : world) (delay : Z) : world :=
  mkWorld (environ w) (remote w) (calls w) (sleeps w ++ [delay]) (stdout w).

(** The poller's test [response_data and response_data.get("done")]
    succeeds on [v]. *)
Definition completed (v : pyval) : bool :=
  match v with
  | PDict d =>
      truthy v && truthy (dict_get d "done")
  | _ => false
  end.

(** The declared result type of the executor, [dict | None]. *)
Definition envelope_or_absent (v : pyval) : bool :=
  match v with
  | PNone | PDict _ => true
  | _ => false
  end.

(** The value of the [k]-th next attempt ([k] from 0) of a poller that
    starts in [w] and sends [r] at every attempt. *)
Definition attempt (w : world) (r : request) (k : nat) : pyval :=
  executor_value (remote w (calls w ++ repeat r k) r).

(** The request the poller sends at every attempt. *)
Definition poll_request (py_repr : pyval -> string) (api_key : string)
    (operation_path : pyval) : request :=
  get_request api_key (ROBLOX_API_BASE ++ "/" ++ py_str py_repr operation_path).

(** [m] is the word [t] with each letter in either case. *)
Fixpoint is_casing_of (t m : string) : bool :=
  match t, m with
  | EmptyString, EmptyString => true
  | String a t', String b m' =>
      (Ascii.eqb b (upper_ascii a) || Ascii.eqb b (lower_ascii a))
      && is_casing_of t' m'
  | _, _ => false
  end.

(** ** Scenarios

    Concrete surroundings on which the code is run. *)

Module Scenario.

Definition ok (v : pyval) : remote_behaviour :=
  Reply (mkResponse 200 "" (inr v)).

(** A remote side that answers the PATCH with [patch] and the [n]-th GET
    ([n] from 0) with [polls n]. *)
Definition gets (hist : list request) : nat :=
  List.length (filter (fun r => match req_method r with GET => true | PATCH => false end)
                 hist).

Definition service (patch : remote_behaviour) (polls : nat -> remote_behaviour)
    (hist : list request) (r : request) : remote_behaviour :=
  match req_method r with
  | PATCH => patch
  | GET => polls (gets hist)
  end.

Definition with_key (name : string) : option string :=
  if (name =? "ROBLOX_API_KEY")%string then Some "secret" else None.

Definition without_key (name : string) : option string := None.

Definition start (env : string -> option string)
    (srv : list request -> request -> remote_behaviour) : world :=
  mkWorld env srv [] [] [].

Definition accepted : remote_behaviour :=
  ok (PDict [("path", PStr "operations/123")]).

Definition not_done : pyval := PDict [("done", PBool false)].
Definition done_bare : pyval := PDict [("done", PBool true)].
Definition done_ok : pyval :=
  PDict [("done", PBool true); ("response", PDict [("status", PStr "ok")])].

(** The PATCH is accepted and the operation never completes. *)
Definition never_done : world :=
  start with_key (service accepted (fun _ => ok not_done)).

(** The PATCH is accepted and the first poll finds the operation done,
    with neither ["response"] nor ["error"]. *)
Definition done_without_data : world :=
  start with_key (service accepted (fun _ => ok done_bare)).

(** The PATCH is answered by an envelope without ["path"]. *)
Definition no_path : world :=
  start with_key (service (ok (PDict [("name", PStr "instance")]))
                    (fun _ => ok not_done)).

(** The operation is done at the third poll. *)
Definition done_at_third : world :=
  start with_key
    (service accepted (fun n => if (n <? 2)%nat then ok not_done else ok done_ok)).

(** No credential in the environment. *)
Definition no_credential : world :=
  start without_key (service accepted (fun _ => ok done_ok)).

(** The polls are answered by a JSON array, which is no envelope. *)
Definition array_reply : world :=
  start with_key (service accepted (fun _ => ok (PList [PInt 1]))).

(** A rendering of values to run the code with where none is interpolated. *)
Definition repr_by_type (v : pyval) : string := "<" ++ type_name v ++ ">".

End Scenario.

(** ** Measures on runs *)

(** The poller goes on after [v]: [v] is falsy, or a [dict] whose ["done"]
    is falsy. *)
Definition pending (v : pyval) : bool :=
  negb (truthy v)
  || match v with
     | PDict d => negb (truthy (dict_get d "done"))
     | _ => false
     end.

(** [v] is truthy and has no method [get]. *)
Definition truthy_without_get (v : pyval) : bool :=
  truthy v && match v with PDict _ => false | _ => true end.

Definition is_patch (r : request) : bool :=
  match req_method r with PATCH => true | GET => false end.

(** How many PATCH requests a log holds. *)
Definition count_patch (l : list request) : nat :=
  List.length (filter is_patch l).

(** What every request of the code looks like as it is handed to httpx:
    the URL string starts with the API base and a slash, the headers carry
    the credential [api_key], and the timeout is 30.  How httpx resolves the
    rest of the URL is not part of this. *)
Definition well_addressed (api_key : string) (r : request) : Prop :=
  prefix (ROBLOX_API_BASE ++ "/") (req_url r) = true /\
  req_headers r = [("x-api-key", api_key); ("Content-Type", "application/json")] /\
  req_timeout r = 30.

(** The request [update_script] opens with. *)
Definition update_request (api_key : string) (universe_id place_id : Z)
    (instance_id script_content : string) : request :=
  patch_request api_key (instance_url universe_id place_id instance_id)
    (patch_data script_content).

(** Two invocations of [update_script], one after the other; the second
    starts in the world the first leaves, whatever its outcome. *)
Definition update_script_twice (py_repr : pyval -> string)
    (universe_id place_id : Z) (instance_id script_content : string)
    (w : world) : world :=
  snd (update_script py_repr universe_id place_id instance_id script_content
         (snd (update_script py_repr universe_id place_id instance_id
                 script_content w))).

(** ** Further scenarios *)

Module Edge.

Import Scenario.

Definition blank_key (name : string) : option string :=
  if (name =? "ROBLOX_API_KEY")%string then Some "" else None.

(** The credential is set to the empty string. *)
Definition blank_credential : world :=
  start blank_key (service accepted (fun _ => ok done_ok)).

(** The PATCH is refused with a 403. *)
Definition patch_refused : world :=
  start with_key
    (service (Reply (mkResponse 403 "forbidden" (inl "Expecting value")))
       (fun _ => ok done_ok)).

(** The PATCH is answered with an empty ["path"]. *)
Definition empty_path : world :=
  start with_key (service (ok (PDict [("path", PStr "")])) (fun _ => ok done_ok)).

(** The PATCH is answered by an empty JSON array. *)
Definition array_patch : world :=
  start with_key (service (ok (PList [])) (fun _ => ok done_ok)).

Definition done_error : pyval :=
  PDict [("done", PBool true); ("error", PStr "quota exceeded")].

Definition done_both : pyval :=
  PDict [("done", PBool true); ("error", PStr "late");
         ("response", PStr "fine")].

(** The operation ends with an error at the second poll. *)
Definition fails_at_second : world :=
  start with_key
    (service accepted (fun n => if (n <? 1)%nat then ok not_done else ok done_error)).

(** The final envelope has both ["error"] and ["response"]. *)
Definition both_fields : world :=
  start with_key (service accepted (fun _ => ok done_both)).

(** Every poll times out. *)
Definition polls_time_out : world :=
  start with_key (service accepted (fun _ => Fault "timed out")).

(** Two polls answered by falsy values that are no envelopes, then an array. *)
Definition array_at_third : world :=
  start with_key
    (service accepted
       (fun n => match n with
                 | O => ok (PList [])
                 | S O => ok (PInt 0)
                 | _ => ok (PList [PInt 1])
                 end)).

(** Every poll is answered by the number 0. *)
Definition zero_replies : world :=
  start with_key (service accepted (fun _ => ok (PInt 0))).

(** The first poll is answered by a non-empty array, the following ones by
    a done envelope. *)
Definition array_then_done : world :=
  start with_key
    (service accepted
       (fun n => match n with
                 | O => ok (PList [PInt 1])
                 | _ => ok done_ok
                 end)).

(** The first poll is answered by the number 0, the second one times out,
    the third finds the operation done. *)
Definition slow_start : world :=
  start with_key
    (service accepted
       (fun n => match n with
                 | O => ok (PInt 0)
                 | S O => Fault "timed out"
                 | _ => ok done_ok
                 end)).

End Edge.

(** ** Lemmas on the executor *)

Lemma send_run (r : request) (w : world) :
  send r w =
  (match remote w (calls w) r with
   | Fault msg => Raised (TransportError msg)
   | Reply resp => Returned resp
   end, after_send w r []).
Proof.
  unfold send, after_send. rewrite app_nil_r.
  destruct (remote w (calls w) r); reflexivity.
Qed.

Lemma after_send_print (w : world) (r : request) (line : string) :
  print line (after_send w r []) = (Returned tt, after_send w r [line]).
Proof.
  unfold print, after_send; simpl. rewrite app_nil_r. reflexivity.
Qed.

Lemma executor_sent (r : request) (w : world) (body : M response) :
  body w = (match remote w (calls w) r with
            | Fault msg => Raised (TransportError msg)
            | Reply resp => Returned resp
            end, after_send w r []) ->
  try_except
    (response <- body ;; raise_for_status response ;;; response_json response)
    (fun e =>
       match e with
       | HTTPStatusError c t =>
           print ("Roblox API Error: " ++ str_int c ++ " - " ++ t) ;;;
           ret PNone
       | ValueError m | AttributeError m | TypeError m | KeyError m
       | JSONDecodeError m | TransportError m =>
           print ("Error making Roblox API request: " ++ m) ;;;
           ret PNone
       end) w =
  (Returned (executor_value (remote w (calls w) r)),
   after_send w r (executor_lines (remote w (calls w) r))).
Proof.
  intros Hbody. unfold try_except, bind at 1. rewrite Hbody.
  destruct (remote w (calls w) r) as [msg | resp];
    cbn [executor_value executor_lines].
  - unfold bind. rewrite after_send_print. reflexivity.
  - unfold raise_for_status, response_json.
    destruct (is_success resp).
    + destruct (json resp) as [msg | v]; unfold bind, ret, raise.
      * rewrite after_send_print. reflexivity.
      * reflexivity.
    + unfold bind, raise. rewrite after_send_print. reflexivity.
Qed.

Lemma make_roblox_request_get (api_key method url : string) (data : pyval)
    (is_polling : bool) (w : world) :
  upper method = "GET" ->
  make_roblox_request api_key method url data is_polling w =
  (Returned (executor_value (remote w (calls w) (get_request api_key url))),
   after_send w (get_request api_key url)
     (executor_lines (remote w (calls w) (get_request api_key url)))).
Proof.
  intros Hm. unfold make_roblox_request. rewrite Hm. simpl.
  apply executor_sent. apply send_run.
Qed.

Lemma make_roblox_request_patch (api_key method url : string) (data : pyval)
    (is_polling : bool) (w : world) :
  upper method = "PATCH" ->
  make_roblox_request api_key method url data is_polling w =
  (Returned (executor_value (remote w (calls w) (patch_request api_key url data))),
   after_send w (patch_request api_key url data)
     (executor_lines (remote w (calls w) (patch_request api_key url data)))).
Proof.
  intros Hm. unfold make_roblox_request. rewrite Hm. simpl.
  apply executor_sent. apply send_run.
Qed.

(** ** Lemmas on the poller *)

Section Poller.

Variables (api_key url : string) (delay : Z).

Let r : request := get_request api_key url.

(** One turn of the loop. *)
Lemma poll_loop_S (n : nat) (w : world) :
  poll_loop api_key url delay (S n) w =
  let b := remote w (calls w) r in
  let v := executor_value b in
  let w1 := after_send w r (executor_lines b) in
  if truthy v then
    match v with
    | PDict d =>
        if truthy (dict_get d "done") then (Returned v, w1)
        else poll_loop api_key url delay n (after_sleep w1 delay)
    | _ => (Raised (AttributeError
                      ("'" ++ type_name v ++ "' object has no attribute 'get'")),
            w1)
    end
  else poll_loop api_key url delay n (after_sleep w1 delay).
Proof.
  cbn [poll_loop]. unfold bind at 1.
  rewrite (make_roblox_request_get api_key "GET" url PNone true w eq_refl).
  fold r. cbv zeta.
  set (v := executor_value (remote w (calls w) r)).
  set (w1 := after_send w r _).
  destruct (truthy v) eqn:Ht.
  - destruct v as [ | b | z | f | s | l | d]; try reflexivity.
    cbn [py_get]. unfold bind at 1. unfold ret at 1.
    destruct (truthy (dict_get d "done")); reflexivity.
  - unfold bind at 1. unfold ret at 1. rewrite Ht. reflexivity.
Qed.

Lemma poll_loop_completed (n : nat) (w : world) :
  completed (attempt w r 0) = true ->
  poll_loop api_key url delay (S n) w =
  (Returned (attempt w r 0),
   after_send w r (executor_lines (remote w (calls w) r))).
Proof.
  unfold attempt. cbn [repeat]. rewrite app_nil_r.
  intros Hc. rewrite poll_loop_S. cbv zeta.
  destruct (executor_value (remote w (calls w) r)); try discriminate Hc.
  cbn [completed] in Hc. apply andb_true_iff in Hc as [Ht Hd].
  rewrite Ht, Hd. reflexivity.
Qed.

Lemma poll_loop_pending (n : nat) (w : world) :
  envelope_or_absent (attempt w r 0) = true ->
  completed (attempt w r 0) = false ->
  poll_loop api_key url delay (S n) w =
  poll_loop api_key url delay n
    (after_sleep (after_send w r (executor_lines (remote w (calls w) r))) delay).
Proof.
  unfold attempt. cbn [repeat]. rewrite app_nil_r.
  intros He Hc. rewrite poll_loop_S. cbv zeta.
  destruct (executor_value (remote w (calls w) r)); try discriminate He.
  - reflexivity.
  - cbn [completed] in Hc.
    destruct (truthy (PDict items)); [ | reflexivity].
    cbn [andb] in Hc. rewrite Hc. reflexivity.
Qed.

(** The attempts seen from the world one turn later. *)
Lemma attempt_shift (w : world) (lines : list string) (k : nat) :
  attempt (after_sleep (after_send w r lines) delay) r k = attempt w r (S k).
Proof.
  unfold attempt, after_sleep, after_send. cbn [remote calls repeat].
  rewrite <- app_assoc. reflexivity.
Qed.

Lemma poll_loop_first_done (k : nat) :
  forall (n : nat) (w : world),
    (k < n)%nat ->
    (forall j, (j < k)%nat ->
               envelope_or_absent (attempt w r j) = true /\
               completed (attempt w r j) = false) ->
    completed (attempt w r k) = true ->
    exists w',
      poll_loop api_key url delay n w = (Returned (attempt w r k), w') /\
      calls w' = (calls w ++ repeat r (S k))%list /\
      sleeps w' = (sleeps w ++ repeat delay k)%list.
Proof.
  induction k as [ | k IH]; intros n w Hlt Hbefore Hdone.
  - destruct n as [ | n]; [lia | ].
    rewrite (poll_loop_completed n w Hdone).
    eexists. split; [reflexivity | ].
    cbn [after_send calls sleeps repeat]. rewrite app_nil_r. split; reflexivity.
  - destruct n as [ | n]; [lia | ].
    destruct (Hbefore 0%nat ltac:(lia)) as [He Hc].
    rewrite (poll_loop_pending n w He Hc).
    set (w1 := after_sleep _ _).
    destruct (IH n w1) as (w' & Hrun & Hcalls & Hsleeps).
    + lia.
    + intros j Hj. unfold w1. rewrite attempt_shift. apply Hbefore. lia.
    + unfold w1. rewrite attempt_shift. exact Hdone.
    + exists w'. unfold w1 in Hrun, Hcalls, Hsleeps.
      rewrite attempt_shift in Hrun.
      cbn [after_sleep after_send calls sleeps] in Hcalls, Hsleeps.
      rewrite <- app_assoc in Hcalls, Hsleeps.
      repeat split; assumption.
Qed.

Lemma poll_loop_exhausted (n : nat) :
  forall (w : world),
    (forall j, (j < n)%nat ->
               envelope_or_absent (attempt w r j) = true /\
               completed (attempt w r j) = false) ->
    exists w',
      poll_loop api_key url delay n w = (Returned PNone, w') /\
      calls w' = (calls w ++ repeat r n)%list /\
      sleeps w' = (sleeps w ++ repeat delay n)%list.
Proof.
  induction n as [ | n IH]; intros w Hall.
  - exists w. cbn [poll_loop repeat]. rewrite !app_nil_r.
    repeat split; reflexivity.
  - destruct (Hall 0%nat ltac:(lia)) as [He Hc].
    rewrite (poll_loop_pending n w He Hc).
    set (w1 := after_sleep _ _).
    destruct (IH w1) as (w' & Hrun & Hcalls & Hsleeps).
    + intros j Hj. unfold w1. rewrite attempt_shift. apply Hall. lia.
    + exists w'. unfold w1 in Hcalls, Hsleeps.
      cbn [after_sleep after_send calls sleeps] in Hcalls, Hsleeps.
      rewrite <- app_assoc in Hcalls, Hsleeps.
      repeat split; assumption.
Qed.

Lemma poll_loop_returns_completed (n : nat) :
  forall (w w' : world) (v : pyval),
    poll_loop api_key url delay n w = (Returned v, w') ->
    v <> PNone ->
    completed v = true.
Proof.
  induction n as [ | n IH]; intros w w' v Hrun Hv.
  - cbn [poll_loop] in Hrun. unfold ret in Hrun.
    injection Hrun as Hv' _. congruence.
  - rewrite poll_loop_S in Hrun. cbv zeta in Hrun.
    destruct (truthy (executor_value (remote w (calls w) r))) eqn:Ht.
    + destruct (executor_value (remote w (calls w) r)) as [ | b | z | f | s | l | d];
        try discriminate Hrun.
      destruct (truthy (dict_get d "done")) eqn:Hd.
      * injection Hrun as Hv' _. subst v.
        cbn [completed]. rewrite Ht, Hd. reflexivity.
      * exact (IH _ _ _ Hrun Hv).
    + exact (IH _ _ _ Hrun Hv).
Qed.

End Poller.

(** ** The definitions at work *)

Example upper_mixed : upper "Patch" = "PATCH".
Proof. reflexivity. Qed.

Example upper_keeps_other : upper "get!" = "GET!".
Proof. reflexivity. Qed.

Example casing_yes : is_casing_of "GET" "gEt" = true.
Proof. reflexivity. Qed.

Example casing_no : is_casing_of "GET" "GOT" = false.
Proof. reflexivity. Qed.

Example str_int_negative : str_int (-42) = "-42".
Proof. reflexivity. Qed.

Example contains_inside :
  contains "did not complete within the allowed time"
    "Script update operation did not complete within the allowed time." = true.
Proof. reflexivity. Qed.

Example instance_url_example :
  instance_url 7 8 "abc" =
  "https://apis.roblox.com/cloud/v2/universes/7/places/8/instances/abc".
Proof. reflexivity. Qed.

(** A 404 is printed with its body and comes back as [None]. *)
Example make_roblox_request_rejected :
  make_roblox_request "secret" "GET" "u" PNone false
    (Scenario.start Scenario.with_key
       (fun _ _ => Reply (mkResponse 404 "not found" (inl "Expecting value")))) =
  (Returned PNone,
   mkWorld Scenario.with_key
     (fun _ _ => Reply (mkResponse 404 "not found" (inl "Expecting value")))
     [get_request "secret" "u"] []
     ["Roblox API Error: 404 - not found"]).
Proof. reflexivity. Qed.

(** The PATCH is accepted and the third poll finds the operation done with
    a response: three polls, two delays, and the response in the message. *)
Example update_script_success (py_repr : pyval -> string) :
  exists w',
    update_script py_repr 1 2 "id" "print(1)" Scenario.done_at_third =
    (Returned ("Script updated successfully! Final Response: "
                 ++ py_repr (PDict [("status", PStr "ok")])), w') /\
    List.length (calls w') = 4%nat /\
    sleeps w' = [5; 5].
Proof.
  eexists. split; [vm_compute; reflexivity | split; reflexivity].
Qed.

(** A reply that is truthy and no [dict] has no [get]: the poller raises. *)
Example poll_for_results_array_reply :
  fst (poll_for_results Scenario.repr_by_type "secret" (PStr "operations/123")
         default_retries default_delay Scenario.array_reply) =
  Raised (AttributeError "'list' object has no attribute 'get'").
Proof. reflexivity. Qed.

(** ** The request executor *)

Lemma upper_ascii_idem (a : ascii) : upper_ascii (upper_ascii a) = upper_ascii a.
Proof. destruct a as [[] [] [] [] [] [] [] []]; reflexivity. Qed.

Lemma upper_lower_ascii (a : ascii) : upper_ascii (lower_ascii a) = upper_ascii a.
Proof. destruct a as [[] [] [] [] [] [] [] []]; reflexivity. Qed.

Lemma is_casing_of_upper (t : string) :
  forall m, is_casing_of t m = true -> upper m = upper t.
Proof.
  induction t as [ | a t IH]; intros [ | b m] H; try discriminate H.
  - reflexivity.
  - cbn [is_casing_of] in H. apply andb_true_iff in H as [Hb Hm].
    cbn [upper]. rewrite (IH m Hm). f_equal.
    apply orb_true_iff in Hb as [Hb | Hb]; apply Ascii.eqb_eq in Hb; subst b.
    + apply upper_ascii_idem.
    + apply upper_lower_ascii.
Qed.

(** What becomes of the [ValueError] of line 46: for every credential, URL
    and body, a method that is neither GET nor PATCH in any casing makes the
    executor raise it inside its own [try], where the handler for [Exception]
    catches it.  No request is sent; the world differs only by the printed
    line, and the caller is handed [None]. *)
Lemma make_roblox_request_unsupported
    (api_key method url : string) (data : pyval) (is_polling : bool) (w : world) :
  upper method <> "GET" ->
  upper method <> "PATCH" ->
  make_roblox_request api_key method url data is_polling w =
  (Returned PNone,
   mkWorld (environ w) (remote w) (calls w) (sleeps w)
     (stdout w ++ ["Error making Roblox API request: Unsupported HTTP method: "
                     ++ method])).
Proof.
  intros Hget Hpatch. unfold make_roblox_request.
  apply String.eqb_neq in Hget. apply String.eqb_neq in Hpatch.
  rewrite Hget, Hpatch. reflexivity.
Qed.

(** C1 at its failing input: with the method DELETE the executor sends
    nothing, as the claim says, but the [ValueError] raised at line 46 does
    not reach the executor's caller: the [except Exception] of the same
    [try] catches it and prints it, and the caller gets [None]. *)
Theorem make_roblox_request_delete_swallowed :
  upper "DELETE" <> "GET" /\ upper "DELETE" <> "PATCH" /\
  make_roblox_request "secret" "DELETE" "https://apis.roblox.com/cloud/v2/x"
    PNone false Scenario.never_done =
  (Returned PNone,
   mkWorld (environ Scenario.never_done) (remote Scenario.never_done) [] []
     ["Error making Roblox API request: Unsupported HTTP method: DELETE"]) /\
  ~ (exists e w',
       make_roblox_request "secret" "DELETE" "https://apis.roblox.com/cloud/v2/x"
         PNone false Scenario.never_done = (Raised e, w')).
Proof.
  split; [discriminate | split; [discriminate | split]].
  - reflexivity.
  - intros (e & w' & H). vm_compute in H. discriminate H.
Qed.



(** C10: the executor matches the method whatever its casing: for every
    credential, URL and body, a call with any casing of GET (resp. PATCH)
    runs exactly as the call with ["GET"] (resp. ["PATCH"]): same result,
    same request sent, same world left. *)
Theorem make_roblox_request_case_insensitive
    (api_key method target url : string) (data : pyval) (is_polling : bool)
    (w : world) :
  target = "GET" \/ target = "PATCH" ->
  is_casing_of target method = true ->
  make_roblox_request api_key method url data is_polling w =
  make_roblox_request api_key target url data is_polling w.
Proof.
  intros Ht Hc. apply is_casing_of_upper in Hc.
  destruct Ht as [-> | ->].
  - rewrite (make_roblox_request_get _ method _ _ _ _ Hc).
    rewrite (make_roblox_request_get _ "GET" _ _ _ _ eq_refl). reflexivity.
  - rewrite (make_roblox_request_patch _ method _ _ _ _ Hc).
    rewrite (make_roblox_request_patch _ "PATCH" _ _ _ _ eq_refl). reflexivity.
Qed.

Lemma make_roblox_request_case_insensitive_witness :
  ("PATCH" = "GET" \/ "PATCH" = "PATCH") /\
  is_casing_of "PATCH" "Patch" = true /\
  make_roblox_request "secret" "Patch" "https://apis.roblox.com/cloud/v2/x"
    (patch_data "print(1)") false Scenario.never_done =
  make_roblox_request "secret" "PATCH" "https://apis.roblox.com/cloud/v2/x"
    (patch_data "print(1)") false Scenario.never_done.
Proof.
  split; [right; reflexivity | split; [reflexivity | ]].
  apply make_roblox_request_case_insensitive; [right | ]; reflexivity.
Defined.

(** ** The operation poller *)

(** C9: whatever the poller returns that is not [None] is an envelope (a
    [dict]) whose ["done"] entry is truthy; an envelope with ["done"] false
    or missing is never returned. *)
Theorem poll_for_results_postcondition
    (py_repr : pyval -> string) (api_key : string) (operation_path : pyval)
    (retries delay : Z) (w w' : world) (v : pyval) :
  poll_for_results py_repr api_key operation_path retries delay w = (Returned v, w') ->
  v <> PNone ->
  exists d, v = PDict d /\ truthy (dict_get d "done") = true.
Proof.
  intros Hrun Hv. unfold poll_for_results in Hrun.
  pose proof (poll_loop_returns_completed _ _ _ _ _ _ _ Hrun Hv) as Hc.
  destruct v as [ | b | z | f | s | l | d]; try discriminate Hc.
  exists d. split; [reflexivity | ].
  cbn [completed] in Hc. apply andb_true_iff in Hc as [_ Hd]. exact Hd.
Qed.

Lemma poll_for_results_postcondition_witness :
  exists w',
    poll_for_results Scenario.repr_by_type "secret" (PStr "operations/123")
      default_retries default_delay Scenario.done_at_third =
    (Returned Scenario.done_ok, w') /\
    Scenario.done_ok <> PNone /\
    exists d, Scenario.done_ok = PDict d /\ truthy (dict_get d "done") = true.
Proof.
  eexists. split; [vm_compute; reflexivity | split; [discriminate | ]].
  eapply (poll_for_results_postcondition Scenario.repr_by_type "secret"
            (PStr "operations/123") default_retries default_delay
            Scenario.done_at_third).
  - vm_compute. reflexivity.
  - discriminate.
Defined.

(** ** The tool handler *)

Section Handler.

Variable py_repr : pyval -> string.
Variables (universe_id place_id : Z) (instance_id script_content : string).

(** With a credential, the handler sends the PATCH and goes on from the
    executor's result. *)
Lemma update_script_patch_sent (api_key : string) (w w1 : world) (v : pyval) :
  environ w "ROBLOX_API_KEY" = Some api_key ->
  api_key <> "" ->
  make_roblox_request api_key "PATCH"
    (instance_url universe_id place_id instance_id)
    (patch_data script_content) false w = (Returned v, w1) ->
  update_script py_repr universe_id place_id instance_id script_content w =
  (if is_None v then ret "Error: Failed to initiate script update."
   else
     operation_path <- py_get v "path" ;;
     if negb (truthy operation_path) then
       ret "Error: Operation path not found in PATCH response."
     else
       poll_result <-
         poll_for_results py_repr api_key operation_path
           default_retries default_delay ;;
       outcome_message py_repr poll_result) w1.
Proof.
  intros Henv Hkey Hpatch. apply String.eqb_neq in Hkey.
  unfold update_script. unfold bind at 1. unfold getenv.
  rewrite Henv, Hkey. unfold bind at 1. rewrite Hpatch. reflexivity.
Qed.

(** With an operation path, the handler polls and translates the result. *)
Lemma update_script_polled (api_key : string) (w w1 w2 : world)
    (d : list (string * pyval)) (poll_result : pyval) :
  environ w "ROBLOX_API_KEY" = Some api_key ->
  api_key <> "" ->
  make_roblox_request api_key "PATCH"
    (instance_url universe_id place_id instance_id)
    (patch_data script_content) false w = (Returned (PDict d), w1) ->
  truthy (dict_get d "path") = true ->
  poll_for_results py_repr api_key (dict_get d "path")
    default_retries default_delay w1 = (Returned poll_result, w2) ->
  update_script py_repr universe_id place_id instance_id script_content w =
  outcome_message py_repr poll_result w2.
Proof.
  intros Henv Hkey Hpatch Hpath Hpoll.
  rewrite (update_script_patch_sent api_key w w1 _ Henv Hkey Hpatch).
  cbn [is_None py_get]. unfold bind at 1. unfold ret at 1.
  rewrite Hpath. cbn [negb]. unfold bind at 1. rewrite Hpoll. reflexivity.
Qed.

Lemma lookup_truthy (d : list (string * pyval)) (key : string) :
  truthy (dict_get d key) = true -> truthy (PDict d) = true.
Proof.
  destruct d as [ | kv d]; [discriminate | reflexivity].
Qed.

(** The message for an envelope that is done and carries neither
    ["response"] nor ["error"]. *)
Lemma outcome_message_no_data (e : list (string * pyval)) (w : world) :
  truthy (dict_get e "done") = true ->
  lookup "response" e = None ->
  lookup "error" e = None ->
  outcome_message py_repr (PDict e) w =
  (Returned "Script update operation completed, but no response data found.", w).
Proof.
  intros Hdone Hresp Herr. unfold outcome_message.
  rewrite (lookup_truthy e "done" Hdone).
  cbn [py_get py_in]. unfold bind at 1. unfold ret at 1. rewrite Hdone.
  unfold bind at 1. unfold ret at 1. rewrite Hresp.
  unfold bind at 1. unfold ret at 1. rewrite Herr. reflexivity.
Qed.

(** When the PATCH is accepted with an operation path and none of the ten
    polls finds the operation done, the poller's [None] is reported as a
    failure to poll. *)
Lemma update_script_poll_exhausted (api_key : string) (w w1 : world)
    (d : list (string * pyval)) :
  environ w "ROBLOX_API_KEY" = Some api_key ->
  api_key <> "" ->
  make_roblox_request api_key "PATCH"
    (instance_url universe_id place_id instance_id)
    (patch_data script_content) false w = (Returned (PDict d), w1) ->
  truthy (dict_get d "path") = true ->
  (forall j, (j < 10)%nat ->
     envelope_or_absent
       (attempt w1 (poll_request py_repr api_key (dict_get d "path")) j) = true /\
     completed
       (attempt w1 (poll_request py_repr api_key (dict_get d "path")) j) = false) ->
  exists w2,
    update_script py_repr universe_id place_id instance_id script_content w =
    (Returned "Error: Failed to poll for script update status.", w2) /\
    List.length (calls w2) = (List.length (calls w1) + 10)%nat.
Proof.
  intros Henv Hkey Hpatch Hpath Hall.
  destruct (poll_loop_exhausted api_key
              (ROBLOX_API_BASE ++ "/" ++ py_str py_repr (dict_get d "path"))
              default_delay (Z.to_nat default_retries) w1 Hall)
    as (w2 & Hpoll & Hcalls & _).
  change (poll_for_results py_repr api_key (dict_get d "path")
            default_retries default_delay w1 = (Returned PNone, w2)) in Hpoll.
  exists w2. split.
  - rewrite (update_script_polled api_key w w1 w2 d PNone Henv Hkey Hpatch Hpath Hpoll).
    reflexivity.
  - rewrite Hcalls, length_app, repeat_length. reflexivity.
Qed.

End Handler.

(** C8: whatever the four arguments, when the environment holds no
    [ROBLOX_API_KEY] the handler returns exactly
    ["Error: Roblox Open Cloud API Key is required."] and leaves the world as
    it found it: no request is sent. *)
Theorem update_script_no_credential
    (py_repr : pyval -> string) (universe_id place_id : Z)
    (instance_id script_content : string) (w : world) :
  environ w "ROBLOX_API_KEY" = None ->
  update_script py_repr universe_id place_id instance_id script_content w =
  (Returned "Error: Roblox Open Cloud API Key is required.", w).
Proof.
  intros Henv. unfold update_script, bind, getenv. rewrite Henv. reflexivity.
Qed.

Lemma update_script_no_credential_witness :
  environ Scenario.no_credential "ROBLOX_API_KEY" = None /\
  update_script Scenario.repr_by_type 1 2 "id" "print(1)" Scenario.no_credential =
  (Returned "Error: Roblox Open Cloud API Key is required.", Scenario.no_credential).
Proof.
  split; [reflexivity | ].
  apply update_script_no_credential. reflexivity.
Defined.

(** C4, as the code has it: when the PATCH succeeds (the executor returns
    an envelope) and the envelope has no ["path"] entry, the handler returns
    exactly ["Error: Operation path not found in PATCH response."], without
    polling. *)
Theorem update_script_no_path
    (py_repr : pyval -> string) (universe_id place_id : Z)
    (instance_id script_content api_key : string) (w w1 : world)
    (d : list (string * pyval)) :
  environ w "ROBLOX_API_KEY" = Some api_key ->
  api_key <> "" ->
  make_roblox_request api_key "PATCH"
    (instance_url universe_id place_id instance_id)
    (patch_data script_content) false w = (Returned (PDict d), w1) ->
  lookup "path" d = None ->
  update_script py_repr universe_id place_id instance_id script_content w =
  (Returned "Error: Operation path not found in PATCH response.", w1).
Proof.
  intros Henv Hkey Hpatch Hpath.
  rewrite (update_script_patch_sent py_repr _ _ _ _ api_key w w1 _ Henv Hkey Hpatch).
  cbn [is_None py_get]. unfold bind, ret, dict_get. rewrite Hpath. reflexivity.
Qed.

Lemma update_script_no_path_witness :
  exists w1,
    environ Scenario.no_path "ROBLOX_API_KEY" = Some "secret" /\
    "secret" <> "" /\
    make_roblox_request "secret" "PATCH" (instance_url 1 2 "id")
      (patch_data "print(1)") false Scenario.no_path =
    (Returned (PDict [("name", PStr "instance")]), w1) /\
    lookup "path" [("name", PStr "instance")] = None /\
    update_script Scenario.repr_by_type 1 2 "id" "print(1)" Scenario.no_path =
    (Returned "Error: Operation path not found in PATCH response.", w1).
Proof.
  eexists.
  split; [reflexivity | split; [discriminate | ]].
  split; [vm_compute; reflexivity | split; [reflexivity | ]].
  apply (update_script_no_path Scenario.repr_by_type 1 2 "id" "print(1)" "secret"
           Scenario.no_path _ [("name", PStr "instance")]).
  - reflexivity.
  - discriminate.
  - vm_compute. reflexivity.
  - reflexivity.
Defined.

(** C4, as stated, fails: the PATCH is answered by an envelope without
    ["path"], and the outcome is not the bare
    ["Operation path not found in PATCH response."]. *)
Lemma update_script_no_path_not_bare :
  (exists d w1,
     make_roblox_request "secret" "PATCH" (instance_url 1 2 "id")
       (patch_data "print(1)") false Scenario.no_path = (Returned (PDict d), w1) /\
     lookup "path" d = None) /\
  fst (update_script Scenario.repr_by_type 1 2 "id" "print(1)" Scenario.no_path)
  <> Returned "Operation path not found in PATCH response.".
Proof.
  split.
  - do 2 eexists. split; [vm_compute; reflexivity | reflexivity].
  - vm_compute. discriminate.
Qed.

(** C3, as the code has it: when the poller returns an envelope whose
    ["done"] is truthy and which has neither a ["response"] nor an ["error"]
    entry, the handler returns exactly
    ["Script update operation completed, but no response data found."]. *)
Theorem update_script_done_without_data
    (py_repr : pyval -> string) (universe_id place_id : Z)
    (instance_id script_content api_key : string) (w w1 w2 : world)
    (d e : list (string * pyval)) :
  environ w "ROBLOX_API_KEY" = Some api_key ->
  api_key <> "" ->
  make_roblox_request api_key "PATCH"
    (instance_url universe_id place_id instance_id)
    (patch_data script_content) false w = (Returned (PDict d), w1) ->
  truthy (dict_get d "path") = true ->
  poll_for_results py_repr api_key (dict_get d "path")
    default_retries default_delay w1 = (Returned (PDict e), w2) ->
  truthy (dict_get e "done") = true ->
  lookup "response" e = None ->
  lookup "error" e = None ->
  update_script py_repr universe_id place_id instance_id script_content w =
  (Returned "Script update operation completed, but no response data found.", w2).
Proof.
  intros Henv Hkey Hpatch Hpath Hpoll Hdone Hresp Herr.
  rewrite (update_script_polled py_repr _ _ _ _ api_key w w1 w2 d (PDict e)
             Henv Hkey Hpatch Hpath Hpoll).
  apply outcome_message_no_data; assumption.
Qed.

Lemma update_script_done_without_data_witness :
  exists w1 w2,
    environ Scenario.done_without_data "ROBLOX_API_KEY" = Some "secret" /\
    "secret" <> "" /\
    make_roblox_request "secret" "PATCH" (instance_url 1 2 "id")
      (patch_data "print(1)") false Scenario.done_without_data =
    (Returned (PDict [("path", PStr "operations/123")]), w1) /\
    truthy (dict_get [("path", PStr "operations/123")] "path") = true /\
    poll_for_results Scenario.repr_by_type "secret"
      (dict_get [("path", PStr "operations/123")] "path")
      default_retries default_delay w1 = (Returned (PDict [("done", PBool true)]), w2) /\
    truthy (dict_get [("done", PBool true)] "done") = true /\
    lookup "response" [("done", PBool true)] = None /\
    lookup "error" [("done", PBool true)] = None /\
    update_script Scenario.repr_by_type 1 2 "id" "print(1)"
      Scenario.done_without_data =
    (Returned "Script update operation completed, but no response data found.", w2).
Proof.
  do 2 eexists.
  split; [reflexivity | split; [discriminate | ]].
  split; [vm_compute; reflexivity | split; [reflexivity | ]].
  split; [vm_compute; reflexivity | ].
  split; [reflexivity | split; [reflexivity | split; [reflexivity | ]]].
  eapply (update_script_done_without_data Scenario.repr_by_type 1 2 "id" "print(1)"
            "secret" Scenario.done_without_data _ _
            [("path", PStr "operations/123")] [("done", PBool true)]).
  - reflexivity.
  - discriminate.
  - vm_compute. reflexivity.
  - reflexivity.
  - vm_compute. reflexivity.
  - reflexivity.
  - reflexivity.
  - reflexivity.
Defined.

(** C3, as stated, fails: the poller returns [{"done": true}], and the
    outcome does not contain "did not complete within the allowed time". *)
Lemma update_script_done_without_data_not_timed_out :
  exists w1 w2,
    make_roblox_request "secret" "PATCH" (instance_url 1 2 "id")
      (patch_data "print(1)") false Scenario.done_without_data =
    (Returned (PDict [("path", PStr "operations/123")]), w1) /\
    poll_for_results Scenario.repr_by_type "secret" (PStr "operations/123")
      default_retries default_delay w1 = (Returned (PDict [("done", PBool true)]), w2) /\
    update_script Scenario.repr_by_type 1 2 "id" "print(1)"
      Scenario.done_without_data =
    (Returned "Script update operation completed, but no response data found.", w2) /\
    contains "did not complete within the allowed time"
      "Script update operation completed, but no response data found." = false.
Proof.
  do 2 eexists.
  split; [vm_compute; reflexivity | ].
  split; [vm_compute; reflexivity | ].
  split; [vm_compute; reflexivity | ].
  vm_compute. reflexivity.
Qed.

(** C2 at its failing input: the PATCH is accepted with the path
    ["operations/123"] and every poll is answered [{"done": false}].  The
    handler sends the PATCH and ten polls and returns
    ["Error: Failed to poll for script update status."]: the poller gives
    [None] for an operation that did not complete, and the message
    ["Script update operation did not complete within the allowed time."]
    is kept for an envelope that the poller never returns. *)
Theorem update_script_never_done :
  exists w1 w2,
    make_roblox_request "secret" "PATCH" (instance_url 1 2 "id")
      (patch_data "print(1)") false Scenario.never_done =
    (Returned (PDict [("path", PStr "operations/123")]), w1) /\
    (forall j,
       attempt w1
         (poll_request Scenario.repr_by_type "secret" (PStr "operations/123")) j
       = PDict [("done", PBool false)]) /\
    update_script Scenario.repr_by_type 1 2 "id" "print(1)" Scenario.never_done =
    (Returned "Error: Failed to poll for script update status.", w2) /\
    List.length (calls w2) = 11%nat /\
    sleeps w2 = repeat 5 10.
Proof.
  do 2 eexists.
  split; [vm_compute; reflexivity | ].
  split; [intros j; reflexivity | ].
  split; [vm_compute; reflexivity | ].
  split; reflexivity.
Qed.

(** ** More on the request executor *)

Lemma lower_upper_ascii (a : ascii) : lower_ascii (upper_ascii a) = lower_ascii a.
Proof. destruct a as [[] [] [] [] [] [] [] []]; reflexivity. Qed.

Lemma upper_ascii_fixed_or_lower (b : ascii) :
  upper_ascii b = b \/ lower_ascii (upper_ascii b) = b.
Proof. destruct b as [[] [] [] [] [] [] [] []]; (left; reflexivity) || (right; reflexivity). Qed.

Lemma upper_is_casing_of (t : string) :
  forall m, upper m = upper t -> is_casing_of t m = true.
Proof.
  induction t as [ | a t IH]; intros [ | b m] H; try discriminate H.
  - reflexivity.
  - cbn [upper] in H. injection H as Hb Hm.
    cbn [is_casing_of]. rewrite (IH m Hm), andb_true_r.
    apply orb_true_iff.
    destruct (upper_ascii_fixed_or_lower b) as [Hfix | Hlow].
    + left. apply Ascii.eqb_eq. congruence.
    + right. apply Ascii.eqb_eq.
      rewrite <- Hlow, Hb. apply lower_upper_ascii.
Qed.

Lemma is_casing_of_iff (t m : string) :
  is_casing_of t m = true <-> upper m = upper t.
Proof.
  split; [apply is_casing_of_upper | apply upper_is_casing_of].
Qed.

Lemma is_casing_of_eqb (t m : string) :
  is_casing_of t m = (upper m =? upper t)%string.
Proof.
  destruct (upper m =? upper t)%string eqn:E.
  - apply String.eqb_eq in E. apply upper_is_casing_of. exact E.
  - apply String.eqb_neq in E.
    destruct (is_casing_of t m) eqn:C; [ | reflexivity].
    apply is_casing_of_upper in C. contradiction.
Qed.

(** The run of the executor on a method that is neither word. *)
Lemma make_roblox_request_other
    (api_key method url : string) (data : pyval) (is_polling : bool) (w : world) :
  (upper method =? "GET")%string = false ->
  (upper method =? "PATCH")%string = false ->
  make_roblox_request api_key method url data is_polling w =
  (Returned PNone,
   mkWorld (environ w) (remote w) (calls w) (sleeps w)
     (stdout w ++ ["Error making Roblox API request: Unsupported HTTP method: "
                     ++ method])).
Proof.
  intros Hget Hpatch. unfold make_roblox_request.
  rewrite Hget, Hpatch. reflexivity.
Qed.






(** X2: what the executor sends is decided by the casing-blind reading of
    the method: a GET without body for a casing of "GET", a PATCH carrying
    [data] for a casing of "PATCH", and nothing at all for any other
    string. *)
Theorem make_roblox_request_sends
    (api_key method url : string) (data : pyval) (is_polling : bool) (w : world) :
  calls (snd (make_roblox_request api_key method url data is_polling w)) =
  if is_casing_of "GET" method then (calls w ++ [get_request api_key url])%list
  else if is_casing_of "PATCH" method then
         (calls w ++ [patch_request api_key url data])%list
  else calls w.
Proof.
  rewrite !is_casing_of_eqb. change (upper "GET") with "GET".
  change (upper "PATCH") with "PATCH".
  destruct (upper method =? "GET")%string eqn:Hget.
  - apply String.eqb_eq in Hget.
    rewrite (make_roblox_request_get _ _ _ _ _ _ Hget). reflexivity.
  - destruct (upper method =? "PATCH")%string eqn:Hpatch.
    + apply String.eqb_eq in Hpatch.
      rewrite (make_roblox_request_patch _ _ _ _ _ _ Hpatch). reflexivity.
    + rewrite (make_roblox_request_other _ _ _ _ _ _ Hget Hpatch). reflexivity.
Qed.



(** ** More on the operation poller *)

Section PollerTrace.

Variables (api_key url : string) (delay : Z).

Let r : request := get_request api_key url.

Lemma poll_loop_goes_on (n : nat) (w : world) :
  pending (attempt w r 0) = true ->
  poll_loop api_key url delay (S n) w =
  poll_loop api_key url delay n
    (after_sleep (after_send w r (executor_lines (remote w (calls w) r))) delay).
Proof.
  unfold attempt. cbn [repeat]. rewrite app_nil_r.
  intros Hp. rewrite poll_loop_S. cbv zeta. fold r. unfold pending in Hp.
  destruct (truthy (executor_value (remote w (calls w) r))); [ | reflexivity].
  cbn [negb orb] in Hp.
  destruct (executor_value (remote w (calls w) r)); try discriminate Hp.
  apply negb_true_iff in Hp. rewrite Hp. reflexivity.
Qed.

Lemma poll_loop_without_get (n : nat) (w : world) :
  truthy_without_get (attempt w r 0) = true ->
  poll_loop api_key url delay (S n) w =
  (Raised (AttributeError
             ("'" ++ type_name (attempt w r 0) ++ "' object has no attribute 'get'")),
   after_send w r (executor_lines (remote w (calls w) r))).
Proof.
  unfold attempt. cbn [repeat]. rewrite app_nil_r.
  intros Hp. rewrite poll_loop_S. cbv zeta. fold r. unfold truthy_without_get in Hp.
  apply andb_true_iff in Hp as [Ht Hd]. rewrite Ht.
  destruct (executor_value (remote w (calls w) r)); try discriminate Hd;
    reflexivity.
Qed.

(** The shape of every run of the loop. *)
Lemma poll_loop_trace (n : nat) :
  forall (w : world),
  exists m s : nat,
    (m <= n)%nat /\ (s = m \/ S s = m) /\
    calls (snd (poll_loop api_key url delay n w)) = (calls w ++ repeat r m)%list /\
    sleeps (snd (poll_loop api_key url delay n w)) = (sleeps w ++ repeat delay s)%list /\
    environ (snd (poll_loop api_key url delay n w)) = environ w /\
    remote (snd (poll_loop api_key url delay n w)) = remote w.
Proof.
  assert (Hstop : forall (w : world) (ls : list string) (k : nat),
    exists m s : nat,
      (m <= S k)%nat /\ (s = m \/ S s = m) /\
      calls (after_send w r ls) = (calls w ++ repeat r m)%list /\
      sleeps (after_send w r ls) = (sleeps w ++ repeat delay s)%list /\
      environ (after_send w r ls) = environ w /\
      remote (after_send w r ls) = remote w).
  { intros w ls k. exists 1%nat, 0%nat. cbn [after_send calls sleeps environ remote repeat].
    rewrite app_nil_r. repeat split; try reflexivity; [lia | right; reflexivity]. }
  induction n as [ | n IH]; intros w.
  - exists 0%nat, 0%nat. cbn [poll_loop ret snd repeat]. rewrite !app_nil_r.
    repeat split; try reflexivity. left. reflexivity.
  - assert (Hgo : forall ls,
      exists m s : nat,
        (m <= S n)%nat /\ (s = m \/ S s = m) /\
        calls (snd (poll_loop api_key url delay n (after_sleep (after_send w r ls) delay)))
          = (calls w ++ repeat r m)%list /\
        sleeps (snd (poll_loop api_key url delay n (after_sleep (after_send w r ls) delay)))
          = (sleeps w ++ repeat delay s)%list /\
        environ (snd (poll_loop api_key url delay n (after_sleep (after_send w r ls) delay)))
          = environ w /\
        remote (snd (poll_loop api_key url delay n (after_sleep (after_send w r ls) delay)))
          = remote w).
    { intros ls.
      destruct (IH (after_sleep (after_send w r ls) delay))
        as (m & s & Hm & Hs & Hc & Hsl & He & Hr).
      exists (S m), (S s).
      cbn [after_sleep after_send calls sleeps environ remote] in Hc, Hsl, He, Hr.
      rewrite <- app_assoc in Hc, Hsl.
      repeat split; try assumption; lia. }
    rewrite poll_loop_S. cbv zeta. fold r.
    destruct (truthy (executor_value (remote w (calls w) r))); [ | apply Hgo].
    destruct (executor_value (remote w (calls w) r)); try apply Hstop.
    destruct (truthy (dict_get items "done")); [apply Hstop | apply Hgo].
Qed.

Lemma poll_loop_all_pending (n : nat) :
  forall (w : world),
    (forall j, (j < n)%nat -> pending (attempt w r j) = true) ->
    exists w',
      poll_loop api_key url delay n w = (Returned PNone, w') /\
      calls w' = (calls w ++ repeat r n)%list /\
      sleeps w' = (sleeps w ++ repeat delay n)%list.
Proof.
  induction n as [ | n IH]; intros w Hall.
  - exists w. cbn [poll_loop repeat]. rewrite !app_nil_r.
    repeat split; reflexivity.
  - rewrite (poll_loop_goes_on n w (Hall 0%nat ltac:(lia))).
    set (w1 := after_sleep _ _).
    destruct (IH w1) as (w' & Hrun & Hcalls & Hsleeps).
    + intros j Hj. unfold w1. rewrite (attempt_shift api_key url delay). apply Hall. lia.
    + exists w'. unfold w1 in Hcalls, Hsleeps.
      cbn [after_sleep after_send calls sleeps] in Hcalls, Hsleeps.
      rewrite <- app_assoc in Hcalls, Hsleeps.
      repeat split; assumption.
Qed.

Lemma poll_loop_raises_at (k : nat) :
  forall (n : nat) (w : world),
    (k < n)%nat ->
    (forall j, (j < k)%nat -> pending (attempt w r j) = true) ->
    truthy_without_get (attempt w r k) = true ->
    exists w',
      poll_loop api_key url delay n w =
      (Raised (AttributeError
                 ("'" ++ type_name (attempt w r k)
                      ++ "' object has no attribute 'get'")), w') /\
      calls w' = (calls w ++ repeat r (S k))%list /\
      sleeps w' = (sleeps w ++ repeat delay k)%list.
Proof.
  induction k as [ | k IH]; intros n w Hlt Hbefore Hbad.
  - destruct n as [ | n]; [lia | ].
    rewrite (poll_loop_without_get n w Hbad).
    eexists. split; [reflexivity | ].
    cbn [after_send calls sleeps repeat]. rewrite app_nil_r. split; reflexivity.
  - destruct n as [ | n]; [lia | ].
    rewrite (poll_loop_goes_on n w (Hbefore 0%nat ltac:(lia))).
    set (w1 := after_sleep _ _).
    destruct (IH n w1) as (w' & Hrun & Hcalls & Hsleeps).
    + lia.
    + intros j Hj. unfold w1. rewrite (attempt_shift api_key url delay). apply Hbefore. lia.
    + unfold w1. rewrite (attempt_shift api_key url delay). exact Hbad.
    + exists w'. unfold w1 in Hrun, Hcalls, Hsleeps.
      rewrite (attempt_shift api_key url delay) in Hrun.
      cbn [after_sleep after_send calls sleeps] in Hcalls, Hsleeps.
      rewrite <- app_assoc in Hcalls, Hsleeps.
      repeat split; assumption.
Qed.

End PollerTrace.

(** X4: with [retries] zero or negative the poller does nothing: it
    returns [None] at once, sends no request and does not sleep. *)
Theorem poll_for_results_no_retries
    (py_repr : pyval -> string) (api_key : string) (operation_path : pyval)
    (retries delay : Z) (w : world) :
  retries <= 0 ->
  poll_for_results py_repr api_key operation_path retries delay w =
  (Returned PNone, w).
Proof.
  intros Hr. unfold poll_for_results.
  destruct retries as [ | p | p]; [reflexivity | lia | reflexivity].
Qed.

Lemma poll_for_results_no_retries_witness :
  -3 <= 0 /\
  poll_for_results Scenario.repr_by_type "secret" (PStr "operations/123") (-3) 5
    Scenario.done_without_data =
  (Returned PNone, Scenario.done_without_data).
Proof.
  split; [lia | ].
  apply poll_for_results_no_retries. lia.
Defined.

(** X5: whatever the remote side answers and however the poller ends
    (an envelope, [None] or an exception), it has sent at most [retries]
    requests, all of them the same GET to the operation's URL, and has slept
    [delay] after each of them but possibly the last; it has touched neither
    the environment nor the remote side. *)
Theorem poll_for_results_bounded
    (py_repr : pyval -> string) (api_key : string) (operation_path : pyval)
    (retries delay : Z) (w : world) :
  exists m s : nat,
    (m <= Z.to_nat retries)%nat /\ (s = m \/ S s = m) /\
    calls (snd (poll_for_results py_repr api_key operation_path retries delay w)) =
      (calls w ++ repeat (poll_request py_repr api_key operation_path) m)%list /\
    sleeps (snd (poll_for_results py_repr api_key operation_path retries delay w)) =
      (sleeps w ++ repeat delay s)%list /\
    environ (snd (poll_for_results py_repr api_key operation_path retries delay w)) =
      environ w /\
    remote (snd (poll_for_results py_repr api_key operation_path retries delay w)) =
      remote w.
Proof.
  unfold poll_for_results. apply poll_loop_trace.
Qed.

(** X6: the first reply that is truthy and no [dict] (a non-empty array, a
    non-empty string, a non-zero number, [true]) ends the polling with an
    [AttributeError], the replies before it having been falsy or envelopes
    that are not done: with [k] such replies before it, [k + 1] requests are
    sent and [k] delays slept. *)
Theorem poll_for_results_raises
    (py_repr : pyval -> string) (api_key : string) (operation_path : pyval)
    (retries delay : Z) (w : world) (k : nat) :
  (k < Z.to_nat retries)%nat ->
  (forall j, (j < k)%nat ->
     pending (attempt w (poll_request py_repr api_key operation_path) j) = true) ->
  truthy_without_get (attempt w (poll_request py_repr api_key operation_path) k)
    = true ->
  exists w',
    poll_for_results py_repr api_key operation_path retries delay w =
    (Raised (AttributeError
               ("'" ++ type_name
                         (attempt w (poll_request py_repr api_key operation_path) k)
                    ++ "' object has no attribute 'get'")), w') /\
    calls w' =
      (calls w ++ repeat (poll_request py_repr api_key operation_path) (S k))%list /\
    sleeps w' = (sleeps w ++ repeat delay k)%list.
Proof.
  intros Hk Hbefore Hbad. unfold poll_for_results.
  exact (poll_loop_raises_at api_key _ delay k _ w Hk Hbefore Hbad).
Qed.

Lemma poll_for_results_raises_witness :
  let env := Edge.array_at_third in
  let r := poll_request Scenario.repr_by_type "secret" (PStr "operations/123") in
  (2 < Z.to_nat default_retries)%nat /\
  (forall j, (j < 2)%nat -> pending (attempt env r j) = true) /\
  truthy_without_get (attempt env r 2) = true /\
  exists w',
    poll_for_results Scenario.repr_by_type "secret" (PStr "operations/123")
      default_retries default_delay env =
    (Raised (AttributeError
               ("'" ++ type_name (attempt env r 2)
                    ++ "' object has no attribute 'get'")), w') /\
    calls w' = (calls env ++ repeat r 3)%list /\
    sleeps w' = (sleeps env ++ repeat default_delay 2)%list.
Proof.
  assert (Hbefore : forall j, (j < 2)%nat ->
     pending
       (attempt Edge.array_at_third
          (poll_request Scenario.repr_by_type "secret" (PStr "operations/123")) j)
     = true).
  { intros [ | [ | j]] Hj; [reflexivity | reflexivity | lia]. }
  cbv zeta. split; [vm_compute; lia | split; [exact Hbefore | split; [reflexivity | ]]].
  apply (poll_for_results_raises Scenario.repr_by_type "secret"
           (PStr "operations/123") default_retries default_delay
           Edge.array_at_third 2).
  - vm_compute; lia.
  - exact Hbefore.
  - reflexivity.
Defined.

(** X7: a falsy reply of any type ([None], [false], [0], an empty string,
    array or object) counts as not done, like an envelope whose ["done"] is
    falsy: when every reply is of these, the poller sends [retries] requests,
    sleeps [retries] times and returns [None]. *)
Theorem poll_for_results_all_pending
    (py_repr : pyval -> string) (api_key : string) (operation_path : pyval)
    (retries delay : Z) (w : world) :
  (forall j, (j < Z.to_nat retries)%nat ->
     pending (attempt w (poll_request py_repr api_key operation_path) j) = true) ->
  exists w',
    poll_for_results py_repr api_key operation_path retries delay w =
    (Returned PNone, w') /\
    calls w' =
      (calls w ++ repeat (poll_request py_repr api_key operation_path)
                    (Z.to_nat retries))%list /\
    sleeps w' = (sleeps w ++ repeat delay (Z.to_nat retries))%list.
Proof.
  intros Hall. unfold poll_for_results.
  exact (poll_loop_all_pending api_key _ delay _ w Hall).
Qed.

Lemma poll_for_results_all_pending_witness :
  let env := Edge.zero_replies in
  let r := poll_request Scenario.repr_by_type "secret" (PStr "operations/123") in
  (forall j, (j < Z.to_nat default_retries)%nat -> pending (attempt env r j) = true) /\
  exists w',
    poll_for_results Scenario.repr_by_type "secret" (PStr "operations/123")
      default_retries default_delay env = (Returned PNone, w') /\
    calls w' = (calls env ++ repeat r (Z.to_nat default_retries))%list /\
    sleeps w' = (sleeps env ++ repeat default_delay (Z.to_nat default_retries))%list.
Proof.
  cbv zeta. split.
  - intros j _. reflexivity.
  - apply (poll_for_results_all_pending Scenario.repr_by_type "secret"
             (PStr "operations/123") default_retries default_delay
             Edge.zero_replies).
    intros j _. reflexivity.
Defined.

(** ** More on the tool handler *)

Section HandlerRuns.

Variable py_repr : pyval -> string.
Variables (universe_id place_id : Z) (instance_id script_content : string).

(** The translation of the poller's result leaves the world alone. *)
Lemma outcome_message_frame (v : pyval) (w : world) :
  snd (outcome_message py_repr v w) = w.
Proof.
  unfold outcome_message.
  destruct (truthy v); [ | reflexivity].
  destruct v as [ | b | z | f | s | l | d]; try reflexivity.
  cbn [py_get py_in py_getitem]. unfold bind at 1. unfold ret at 1.
  destruct (truthy (dict_get d "done")); [ | reflexivity].
  unfold bind at 1. unfold ret at 1.
  destruct (lookup "response" d); [reflexivity | ].
  unfold bind at 1. unfold ret at 1.
  destruct (lookup "error" d); reflexivity.
Qed.

Lemma outcome_message_response (e : list (string * pyval)) (x : pyval) (w : world) :
  truthy (dict_get e "done") = true ->
  lookup "response" e = Some x ->
  outcome_message py_repr (PDict e) w =
  (Returned ("Script updated successfully! Final Response: " ++ py_str py_repr x), w).
Proof.
  intros Hdone Hresp. unfold outcome_message.
  rewrite (lookup_truthy e "done" Hdone).
  cbn [py_get py_in py_getitem]. unfold bind at 1. unfold ret at 1. rewrite Hdone.
  unfold bind at 1. unfold ret at 1. rewrite Hresp. reflexivity.
Qed.

Lemma outcome_message_error (e : list (string * pyval)) (x : pyval) (w : world) :
  truthy (dict_get e "done") = true ->
  lookup "response" e = None ->
  lookup "error" e = Some x ->
  outcome_message py_repr (PDict e) w =
  (Returned ("Script update failed. Error: " ++ py_str py_repr x), w).
Proof.
  intros Hdone Hresp Herr. unfold outcome_message.
  rewrite (lookup_truthy e "done" Hdone).
  cbn [py_get py_in py_getitem]. unfold bind at 1. unfold ret at 1. rewrite Hdone.
  unfold bind at 1. unfold ret at 1. rewrite Hresp.
  unfold bind at 1. unfold ret at 1. rewrite Herr. reflexivity.
Qed.

(** On what the poller can return, the translation returns a message, and
    not the one of the branch for a result that is not done. *)
Lemma outcome_message_of_poll (v : pyval) (w : world) :
  v = PNone \/ completed v = true ->
  exists s,
    outcome_message py_repr v w = (Returned s, w) /\
    s <> "Script update operation did not complete within the allowed time.".
Proof.
  intros [-> | Hc].
  - eexists. split; [reflexivity | discriminate].
  - destruct v as [ | b | z | f | s | l | e]; try discriminate Hc.
    cbn [completed] in Hc. apply andb_true_iff in Hc as [_ Hdone].
    destruct (lookup "response" e) as [x | ] eqn:Hresp.
    + rewrite (outcome_message_response e x w Hdone Hresp).
      eexists. split; [reflexivity | ]. cbn. discriminate.
    + destruct (lookup "error" e) as [x | ] eqn:Herr.
      * rewrite (outcome_message_error e x w Hdone Hresp Herr).
        eexists. split; [reflexivity | ]. cbn. discriminate.
      * rewrite (outcome_message_no_data py_repr e w Hdone Hresp Herr).
        eexists. split; [reflexivity | discriminate].
Qed.

(** With a credential, the run of the handler from the PATCH on. *)
Lemma update_script_from_patch (api_key : string) (w : world) :
  environ w "ROBLOX_API_KEY" = Some api_key ->
  api_key <> "" ->
  update_script py_repr universe_id place_id instance_id script_content w =
  (if is_None
        (executor_value
           (remote w (calls w)
              (update_request api_key universe_id place_id instance_id
                 script_content)))
   then ret "Error: Failed to initiate script update."
   else
     operation_path <-
       py_get
         (executor_value
            (remote w (calls w)
               (update_request api_key universe_id place_id instance_id
                  script_content))) "path" ;;
     if negb (truthy operation_path) then
       ret "Error: Operation path not found in PATCH response."
     else
       poll_result <-
         poll_for_results py_repr api_key operation_path
           default_retries default_delay ;;
       outcome_message py_repr poll_result)
    (after_send w
       (update_request api_key universe_id place_id instance_id script_content)
       (executor_lines
          (remote w (calls w)
             (update_request api_key universe_id place_id instance_id
                script_content)))).
Proof.
  intros Henv Hkey.
  apply (update_script_patch_sent py_repr _ _ _ _ api_key w _ _ Henv Hkey).
  apply make_roblox_request_patch. reflexivity.
Qed.

Lemma count_patch_app (l l' : list request) :
  count_patch (l ++ l') = (count_patch l + count_patch l')%nat.
Proof. unfold count_patch. rewrite filter_app, length_app. reflexivity. Qed.

Lemma count_patch_polls (r : request) (n : nat) :
  is_patch r = false -> count_patch (repeat r n) = 0%nat.
Proof.
  intros Hr. unfold count_patch.
  induction n as [ | n IH]; [reflexivity | ].
  cbn [repeat filter]. rewrite Hr. exact IH.
Qed.

(** With a credential, every run of the handler sends the PATCH and then
    at most ten times the same GET, sleeping 5 after each GET but possibly
    the last. *)
Lemma update_script_trace (api_key : string) (w : world) :
  environ w "ROBLOX_API_KEY" = Some api_key ->
  api_key <> "" ->
  exists (operation_path : pyval) (n s : nat),
    (n <= 10)%nat /\ (s = n \/ S s = n) /\
    calls (snd (update_script py_repr universe_id place_id instance_id
                  script_content w)) =
      (calls w
         ++ update_request api_key universe_id place_id instance_id script_content
         :: repeat (poll_request py_repr api_key operation_path) n)%list /\
    sleeps (snd (update_script py_repr universe_id place_id instance_id
                   script_content w)) =
      (sleeps w ++ repeat default_delay s)%list /\
    environ (snd (update_script py_repr universe_id place_id instance_id
                    script_content w)) = environ w /\
    remote (snd (update_script py_repr universe_id place_id instance_id
                   script_content w)) = remote w.
Proof.
  intros Henv Hkey.
  remember (snd (update_script py_repr universe_id place_id instance_id
                   script_content w)) as w' eqn:Hw'.
  rewrite (update_script_from_patch api_key w Henv Hkey) in Hw'.
  set (rq := update_request api_key universe_id place_id instance_id script_content)
    in *.
  set (w1 := after_send w rq _) in Hw'.
  assert (Hstop : w' = w1 ->
    exists (operation_path : pyval) (n s : nat),
      (n <= 10)%nat /\ (s = n \/ S s = n) /\
      calls w' =
        (calls w ++ rq :: repeat (poll_request py_repr api_key operation_path) n)%list /\
      sleeps w' = (sleeps w ++ repeat default_delay s)%list /\
      environ w' = environ w /\
      remote w' = remote w).
  { intros ->. exists PNone, 0%nat, 0%nat.
    cbn [repeat]. unfold w1. cbn [after_send calls sleeps environ remote].
    rewrite app_nil_r. repeat split; try reflexivity; [lia | left; reflexivity]. }
  destruct (executor_value (remote w (calls w) rq)) as [ | b | z | f | s | l | d];
    cbn [is_None py_get] in Hw'; try (apply Hstop; exact Hw').
  unfold bind at 1 in Hw'. unfold ret at 1 in Hw'.
  destruct (truthy (dict_get d "path")); cbn [negb] in Hw';
    [ | apply Hstop; exact Hw'].
  assert (Hsnd : w' =
    snd (poll_for_results py_repr api_key (dict_get d "path")
           default_retries default_delay w1)).
  { rewrite Hw'. unfold bind.
    destruct (poll_for_results py_repr api_key (dict_get d "path")
                default_retries default_delay w1) as [[v | e] w2];
      [apply outcome_message_frame | reflexivity]. }
  clear Hw' Hstop. unfold poll_for_results in Hsnd.
  destruct (poll_loop_trace api_key
              (ROBLOX_API_BASE ++ "/" ++ py_str py_repr (dict_get d "path"))
              default_delay (Z.to_nat default_retries) w1)
    as (m & s & Hm & Hs & Hc & Hsl & He & Hr).
  rewrite <- Hsnd in Hc, Hsl, He, Hr.
  exists (dict_get d "path"), m, s.
  rewrite Hc, Hsl, He, Hr. unfold w1.
  cbn [after_send calls sleeps environ remote].
  rewrite <- app_assoc.
  repeat split; try reflexivity; assumption.
Qed.


End HandlerRuns.

(** X8: a credential set to the empty string counts as missing: the
    handler returns ["Error: Roblox Open Cloud API Key is required."] and
    leaves the world as it found it. *)
Theorem update_script_blank_credential
    (py_repr : pyval -> string) (universe_id place_id : Z)
    (instance_id script_content : string) (w : world) :
  environ w "ROBLOX_API_KEY" = Some "" ->
  update_script py_repr universe_id place_id instance_id script_content w =
  (Returned "Error: Roblox Open Cloud API Key is required.", w).
Proof.
  intros Henv. unfold update_script, bind, getenv. rewrite Henv. reflexivity.
Qed.

Lemma update_script_blank_credential_witness :
  environ Edge.blank_credential "ROBLOX_API_KEY" = Some "" /\
  update_script Scenario.repr_by_type 1 2 "id" "print(1)" Edge.blank_credential =
  (Returned "Error: Roblox Open Cloud API Key is required.", Edge.blank_credential).
Proof.
  split; [reflexivity | ].
  apply update_script_blank_credential. reflexivity.
Defined.

(** X9: when the executor returns [None] for the PATCH (refused, failed to
    send, or answered with [null]), the handler returns
    ["Error: Failed to initiate script update."] in the world the PATCH
    left: it does not poll. *)
Theorem update_script_patch_failed
    (py_repr : pyval -> string) (universe_id place_id : Z)
    (instance_id script_content api_key : string) (w w1 : world) :
  environ w "ROBLOX_API_KEY" = Some api_key ->
  api_key <> "" ->
  make_roblox_request api_key "PATCH"
    (instance_url universe_id place_id instance_id)
    (patch_data script_content) false w = (Returned PNone, w1) ->
  update_script py_repr universe_id place_id instance_id script_content w =
  (Returned "Error: Failed to initiate script update.", w1).
Proof.
  intros Henv Hkey Hpatch.
  rewrite (update_script_patch_sent py_repr _ _ _ _ api_key w w1 _ Henv Hkey Hpatch).
  reflexivity.
Qed.

Lemma update_script_patch_failed_witness :
  exists w1,
    environ Edge.patch_refused "ROBLOX_API_KEY" = Some "secret" /\
    "secret" <> "" /\
    make_roblox_request "secret" "PATCH" (instance_url 1 2 "id")
      (patch_data "print(1)") false Edge.patch_refused = (Returned PNone, w1) /\
    calls w1 = [update_request "secret" 1 2 "id" "print(1)"] /\
    update_script Scenario.repr_by_type 1 2 "id" "print(1)" Edge.patch_refused =
    (Returned "Error: Failed to initiate script update.", w1).
Proof.
  eexists.
  split; [reflexivity | split; [discriminate | ]].
  split; [vm_compute; reflexivity | split; [reflexivity | ]].
  apply (update_script_patch_failed Scenario.repr_by_type 1 2 "id" "print(1)"
           "secret" Edge.patch_refused).
  - reflexivity.
  - discriminate.
  - vm_compute. reflexivity.
Defined.

(** X10: an operation path that is present but falsy (an empty string,
    [null], [0], [false], an empty array or object) is treated as a missing
    one: the handler returns
    ["Error: Operation path not found in PATCH response."] without polling. *)
Theorem update_script_falsy_path
    (py_repr : pyval -> string) (universe_id place_id : Z)
    (instance_id script_content api_key : string) (w w1 : world)
    (d : list (string * pyval)) :
  environ w "ROBLOX_API_KEY" = Some api_key ->
  api_key <> "" ->
  make_roblox_request api_key "PATCH"
    (instance_url universe_id place_id instance_id)
    (patch_data script_content) false w = (Returned (PDict d), w1) ->
  truthy (dict_get d "path") = false ->
  update_script py_repr universe_id place_id instance_id script_content w =
  (Returned "Error: Operation path not found in PATCH response.", w1).
Proof.
  intros Henv Hkey Hpatch Hpath.
  rewrite (update_script_patch_sent py_repr _ _ _ _ api_key w w1 _ Henv Hkey Hpatch).
  cbn [is_None py_get]. unfold bind, ret. rewrite Hpath. reflexivity.
Qed.

Lemma update_script_falsy_path_witness :
  exists w1,
    environ Edge.empty_path "ROBLOX_API_KEY" = Some "secret" /\
    "secret" <> "" /\
    make_roblox_request "secret" "PATCH" (instance_url 1 2 "id")
      (patch_data "print(1)") false Edge.empty_path =
    (Returned (PDict [("path", PStr "")]), w1) /\
    truthy (dict_get [("path", PStr "")] "path") = false /\
    update_script Scenario.repr_by_type 1 2 "id" "print(1)" Edge.empty_path =
    (Returned "Error: Operation path not found in PATCH response.", w1).
Proof.
  eexists.
  split; [reflexivity | split; [discriminate | ]].
  split; [vm_compute; reflexivity | split; [reflexivity | ]].
  apply (update_script_falsy_path Scenario.repr_by_type 1 2 "id" "print(1)"
           "secret" Edge.empty_path _ [("path", PStr "")]).
  - reflexivity.
  - discriminate.
  - vm_compute. reflexivity.
  - reflexivity.
Defined.

(** X11: when the poller returns an envelope with a ["response"] entry, the
    handler returns ["Script updated successfully! Final Response: "]
    followed by [str] of that entry, whether or not the envelope also has an
    ["error"] entry. *)
Theorem update_script_reports_response
    (py_repr : pyval -> string) (universe_id place_id : Z)
    (instance_id script_content api_key : string) (w w1 w2 : world)
    (d e : list (string * pyval)) (x : pyval) :
  environ w "ROBLOX_API_KEY" = Some api_key ->
  api_key <> "" ->
  make_roblox_request api_key "PATCH"
    (instance_url universe_id place_id instance_id)
    (patch_data script_content) false w = (Returned (PDict d), w1) ->
  truthy (dict_get d "path") = true ->
  poll_for_results py_repr api_key (dict_get d "path")
    default_retries default_delay w1 = (Returned (PDict e), w2) ->
  lookup "response" e = Some x ->
  update_script py_repr universe_id place_id instance_id script_content w =
  (Returned ("Script updated successfully! Final Response: " ++ py_str py_repr x),
   w2).
Proof.
  intros Henv Hkey Hpatch Hpath Hpoll Hresp.
  rewrite (update_script_polled py_repr _ _ _ _ api_key w w1 w2 d (PDict e)
             Henv Hkey Hpatch Hpath Hpoll).
  apply outcome_message_response; [ | exact Hresp].
  unfold poll_for_results in Hpoll.
  assert (Hne : PDict e <> PNone) by discriminate.
  pose proof (poll_loop_returns_completed _ _ _ _ _ _ _ Hpoll Hne) as Hc.
  cbn [completed] in Hc. apply andb_true_iff in Hc as [_ Hd]. exact Hd.
Qed.

Lemma update_script_reports_response_witness :
  exists w1 w2,
    environ Edge.both_fields "ROBLOX_API_KEY" = Some "secret" /\
    "secret" <> "" /\
    make_roblox_request "secret" "PATCH" (instance_url 1 2 "id")
      (patch_data "print(1)") false Edge.both_fields =
    (Returned (PDict [("path", PStr "operations/123")]), w1) /\
    truthy (dict_get [("path", PStr "operations/123")] "path") = true /\
    poll_for_results Scenario.repr_by_type "secret"
      (dict_get [("path", PStr "operations/123")] "path")
      default_retries default_delay w1 =
    (Returned (PDict [("done", PBool true); ("error", PStr "late");
                      ("response", PStr "fine")]), w2) /\
    lookup "response" [("done", PBool true); ("error", PStr "late");
                       ("response", PStr "fine")] = Some (PStr "fine") /\
    update_script Scenario.repr_by_type 1 2 "id" "print(1)" Edge.both_fields =
    (Returned "Script updated successfully! Final Response: fine", w2).
Proof.
  do 2 eexists.
  split; [reflexivity | split; [discriminate | ]].
  split; [vm_compute; reflexivity | split; [reflexivity | ]].
  split; [vm_compute; reflexivity | split; [reflexivity | ]].
  eapply (update_script_reports_response Scenario.repr_by_type 1 2 "id" "print(1)"
           "secret" Edge.both_fields _ _ [("path", PStr "operations/123")]
           [("done", PBool true); ("error", PStr "late"); ("response", PStr "fine")]
           (PStr "fine")).
  - reflexivity.
  - discriminate.
  - vm_compute. reflexivity.
  - reflexivity.
  - vm_compute. reflexivity.
  - reflexivity.
Defined.

(** X12: when the poller returns an envelope with an ["error"] entry and no
    ["response"] entry, the handler returns ["Script update failed. Error: "]
    followed by [str] of the error. *)
Theorem update_script_reports_error
    (py_repr : pyval -> string) (universe_id place_id : Z)
    (instance_id script_content api_key : string) (w w1 w2 : world)
    (d e : list (string * pyval)) (x : pyval) :
  environ w "ROBLOX_API_KEY" = Some api_key ->
  api_key <> "" ->
  make_roblox_request api_key "PATCH"
    (instance_url universe_id place_id instance_id)
    (patch_data script_content) false w = (Returned (PDict d), w1) ->
  truthy (dict_get d "path") = true ->
  poll_for_results py_repr api_key (dict_get d "path")
    default_retries default_delay w1 = (Returned (PDict e), w2) ->
  lookup "response" e = None ->
  lookup "error" e = Some x ->
  update_script py_repr universe_id place_id instance_id script_content w =
  (Returned ("Script update failed. Error: " ++ py_str py_repr x), w2).
Proof.
  intros Henv Hkey Hpatch Hpath Hpoll Hresp Herr.
  rewrite (update_script_polled py_repr _ _ _ _ api_key w w1 w2 d (PDict e)
             Henv Hkey Hpatch Hpath Hpoll).
  apply outcome_message_error; [ | exact Hresp | exact Herr].
  unfold poll_for_results in Hpoll.
  assert (Hne : PDict e <> PNone) by discriminate.
  pose proof (poll_loop_returns_completed _ _ _ _ _ _ _ Hpoll Hne) as Hc.
  cbn [completed] in Hc. apply andb_true_iff in Hc as [_ Hd]. exact Hd.
Qed.

Lemma update_script_reports_error_witness :
  exists w1 w2,
    environ Edge.fails_at_second "ROBLOX_API_KEY" = Some "secret" /\
    "secret" <> "" /\
    make_roblox_request "secret" "PATCH" (instance_url 1 2 "id")
      (patch_data "print(1)") false Edge.fails_at_second =
    (Returned (PDict [("path", PStr "operations/123")]), w1) /\
    truthy (dict_get [("path", PStr "operations/123")] "path") = true /\
    poll_for_results Scenario.repr_by_type "secret"
      (dict_get [("path", PStr "operations/123")] "path")
      default_retries default_delay w1 =
    (Returned (PDict [("done", PBool true); ("error", PStr "quota exceeded")]), w2) /\
    lookup "response" [("done", PBool true); ("error", PStr "quota exceeded")] = None /\
    lookup "error" [("done", PBool true); ("error", PStr "quota exceeded")]
      = Some (PStr "quota exceeded") /\
    update_script Scenario.repr_by_type 1 2 "id" "print(1)" Edge.fails_at_second =
    (Returned "Script update failed. Error: quota exceeded", w2).
Proof.
  do 2 eexists.
  split; [reflexivity | split; [discriminate | ]].
  split; [vm_compute; reflexivity | split; [reflexivity | ]].
  split; [vm_compute; reflexivity | split; [reflexivity | split; [reflexivity | ]]].
  eapply (update_script_reports_error Scenario.repr_by_type 1 2 "id" "print(1)"
           "secret" Edge.fails_at_second _ _ [("path", PStr "operations/123")]
           [("done", PBool true); ("error", PStr "quota exceeded")]
           (PStr "quota exceeded")).
  - reflexivity.
  - discriminate.
  - vm_compute. reflexivity.
  - reflexivity.
  - vm_compute. reflexivity.
  - reflexivity.
  - reflexivity.
Defined.

(** X13: when the poller returns [None], the handler returns
    ["Error: Failed to poll for script update status."], in the world the
    poller left. *)
Theorem update_script_poll_none
    (py_repr : pyval -> string) (universe_id place_id : Z)
    (instance_id script_content api_key : string) (w w1 w2 : world)
    (d : list (string * pyval)) :
  environ w "ROBLOX_API_KEY" = Some api_key ->
  api_key <> "" ->
  make_roblox_request api_key "PATCH"
    (instance_url universe_id place_id instance_id)
    (patch_data script_content) false w = (Returned (PDict d), w1) ->
  truthy (dict_get d "path") = true ->
  poll_for_results py_repr api_key (dict_get d "path")
    default_retries default_delay w1 = (Returned PNone, w2) ->
  update_script py_repr universe_id place_id instance_id script_content w =
  (Returned "Error: Failed to poll for script update status.", w2).
Proof.
  intros Henv Hkey Hpatch Hpath Hpoll.
  rewrite (update_script_polled py_repr _ _ _ _ api_key w w1 w2 d PNone
             Henv Hkey Hpatch Hpath Hpoll).
  reflexivity.
Qed.

Lemma update_script_poll_none_witness :
  exists w1 w2,
    environ Edge.polls_time_out "ROBLOX_API_KEY" = Some "secret" /\
    "secret" <> "" /\
    make_roblox_request "secret" "PATCH" (instance_url 1 2 "id")
      (patch_data "print(1)") false Edge.polls_time_out =
    (Returned (PDict [("path", PStr "operations/123")]), w1) /\
    truthy (dict_get [("path", PStr "operations/123")] "path") = true /\
    poll_for_results Scenario.repr_by_type "secret"
      (dict_get [("path", PStr "operations/123")] "path")
      default_retries default_delay w1 = (Returned PNone, w2) /\
    update_script Scenario.repr_by_type 1 2 "id" "print(1)" Edge.polls_time_out =
    (Returned "Error: Failed to poll for script update status.", w2).
Proof.
  do 2 eexists.
  split; [reflexivity | split; [discriminate | ]].
  split; [vm_compute; reflexivity | split; [reflexivity | ]].
  split; [vm_compute; reflexivity | ].
  eapply (update_script_poll_none Scenario.repr_by_type 1 2 "id" "print(1)"
            "secret" Edge.polls_time_out _ _ [("path", PStr "operations/123")]).
  - reflexivity.
  - discriminate.
  - vm_compute. reflexivity.
  - reflexivity.
  - vm_compute. reflexivity.
Defined.

(** X14: the handler never returns
    ["Script update operation did not complete within the allowed time."]:
    the branch that holds this message needs a truthy poll result whose
    ["done"] is falsy, and the poller returns no such value. *)
Theorem update_script_never_reports_time_out
    (py_repr : pyval -> string) (universe_id place_id : Z)
    (instance_id script_content : string) (w : world) :
  fst (update_script py_repr universe_id place_id instance_id script_content w) <>
  Returned "Script update operation did not complete within the allowed time.".
Proof.
  destruct (environ w "ROBLOX_API_KEY") as [api_key | ] eqn:Henv.
  - destruct (api_key =? "")%string eqn:Hkey.
    + apply String.eqb_eq in Hkey. subst api_key.
      unfold update_script, bind, getenv. rewrite Henv. cbn. discriminate.
    + apply String.eqb_neq in Hkey.
      rewrite (update_script_from_patch py_repr _ _ _ _ api_key w Henv Hkey).
      set (w1 := after_send w _ _).
      destruct (executor_value
                  (remote w (calls w)
                     (update_request api_key universe_id place_id instance_id
                        script_content))) as [ | b | z | f | s | l | d];
        cbn [is_None py_get]; try (cbn; discriminate).
      unfold bind at 1. unfold ret at 1.
      destruct (truthy (dict_get d "path")); cbn [negb]; [ | cbn; discriminate].
      unfold bind.
      destruct (poll_for_results py_repr api_key (dict_get d "path")
                  default_retries default_delay w1) as [[v | e] w2] eqn:Hpoll;
        [ | cbn; discriminate].
      assert (Hv : v = PNone \/ completed v = true).
      { destruct (is_None v) eqn:Hn.
        - left. destruct v; try discriminate Hn. reflexivity.
        - right. unfold poll_for_results in Hpoll.
          apply (poll_loop_returns_completed _ _ _ _ _ _ _ Hpoll).
          intros ->. discriminate Hn. }
      destruct (outcome_message_of_poll py_repr v w2 Hv) as (msg & Hrun & Hmsg).
      rewrite Hrun. cbn [fst]. intros H. injection H as H. contradiction.
  - unfold update_script, bind, getenv. rewrite Henv. cbn. discriminate.
Qed.




(** X16: when the PATCH is answered by JSON that is neither an object nor
    [null] (an array, a string, a number, a boolean), the handler raises
    [AttributeError] to its caller, having sent the PATCH and nothing else. *)
Theorem update_script_raises
    (py_repr : pyval -> string) (universe_id place_id : Z)
    (instance_id script_content api_key : string) (w w1 : world) (v : pyval) :
  environ w "ROBLOX_API_KEY" = Some api_key ->
  api_key <> "" ->
  make_roblox_request api_key "PATCH"
    (instance_url universe_id place_id instance_id)
    (patch_data script_content) false w = (Returned v, w1) ->
  envelope_or_absent v = false ->
  update_script py_repr universe_id place_id instance_id script_content w =
  (Raised (AttributeError ("'" ++ type_name v ++ "' object has no attribute 'get'")),
   w1).
Proof.
  intros Henv Hkey Hpatch Hv.
  rewrite (update_script_patch_sent py_repr _ _ _ _ api_key w w1 _ Henv Hkey Hpatch).
  destruct v as [ | b | z | f | s | l | d]; try discriminate Hv; reflexivity.
Qed.

Lemma update_script_raises_witness :
  exists w1,
    environ Edge.array_patch "ROBLOX_API_KEY" = Some "secret" /\
    "secret" <> "" /\
    make_roblox_request "secret" "PATCH" (instance_url 1 2 "id")
      (patch_data "print(1)") false Edge.array_patch = (Returned (PList []), w1) /\
    envelope_or_absent (PList []) = false /\
    update_script Scenario.repr_by_type 1 2 "id" "print(1)" Edge.array_patch =
    (Raised (AttributeError "'list' object has no attribute 'get'"), w1).
Proof.
  eexists.
  split; [reflexivity | split; [discriminate | ]].
  split; [vm_compute; reflexivity | split; [reflexivity | ]].
  apply (update_script_raises Scenario.repr_by_type 1 2 "id" "print(1)"
           "secret" Edge.array_patch _ (PList [])).
  - reflexivity.
  - discriminate.
  - vm_compute. reflexivity.
  - reflexivity.
Defined.

(** X17: with a credential, whatever the remote side answers and however
    the handler ends, it has sent exactly one PATCH, to the instance's URL
    with the script under [engineInstance.Details.Script.Source], followed by
    at most ten GETs, all to the same operation URL, and it has slept 5
    after each GET but possibly the last. *)
Theorem update_script_requests
    (py_repr : pyval -> string) (universe_id place_id : Z)
    (instance_id script_content api_key : string) (w : world) :
  environ w "ROBLOX_API_KEY" = Some api_key ->
  api_key <> "" ->
  exists (operation_path : pyval) (n s : nat),
    (n <= 10)%nat /\ (s = n \/ S s = n) /\
    calls (snd (update_script py_repr universe_id place_id instance_id
                  script_content w)) =
      (calls w
         ++ update_request api_key universe_id place_id instance_id script_content
         :: repeat (poll_request py_repr api_key operation_path) n)%list /\
    sleeps (snd (update_script py_repr universe_id place_id instance_id
                   script_content w)) =
      (sleeps w ++ repeat default_delay s)%list.
Proof.
  intros Henv Hkey.
  destruct (update_script_trace py_repr universe_id place_id instance_id
              script_content api_key w Henv Hkey)
    as (p & n & s & Hn & Hs & Hc & Hsl & _).
  exists p, n, s. repeat split; assumption.
Qed.

Lemma update_script_requests_witness :
  environ Scenario.done_at_third "ROBLOX_API_KEY" = Some "secret" /\
  "secret" <> "" /\
  exists (operation_path : pyval) (n s : nat),
    (n <= 10)%nat /\ (s = n \/ S s = n) /\
    calls (snd (update_script Scenario.repr_by_type 1 2 "id" "print(1)"
                  Scenario.done_at_third)) =
      (calls Scenario.done_at_third
         ++ update_request "secret" 1 2 "id" "print(1)"
         :: repeat (poll_request Scenario.repr_by_type "secret" operation_path) n)%list /\
    sleeps (snd (update_script Scenario.repr_by_type 1 2 "id" "print(1)"
                   Scenario.done_at_third)) =
      (sleeps Scenario.done_at_third ++ repeat default_delay s)%list.
Proof.
  split; [reflexivity | split; [discriminate | ]].
  apply update_script_requests; [reflexivity | discriminate].
Defined.

Lemma prefix_base (tail : string) :
  prefix (ROBLOX_API_BASE ++ "/") (ROBLOX_API_BASE ++ "/" ++ tail) = true.
Proof.
  assert (H : forall a b, prefix a (a ++ b) = true).
  { induction a as [ | c a IH]; intros b.
    - destruct b; reflexivity.
    - cbn. destruct (ascii_dec c c) as [_ | Hc]; [apply IH | contradiction]. }
  change (ROBLOX_API_BASE ++ "/" ++ tail)
    with ((ROBLOX_API_BASE ++ "/") ++ tail).
  apply H.
Qed.

(** X18: with a credential, every request the handler hands to httpx,
    the PATCH and each poll alike, has a URL string that starts with
    ["https://apis.roblox.com/cloud/v2/"], the headers [x-api-key] (the
    credential read from the environment) and [Content-Type:
    application/json], and the timeout 30.  This is about the arguments of
    [client.get] and [client.patch]; it does not say where httpx sends a URL
    whose rest holds dot segments. *)
Theorem update_script_well_addressed
    (py_repr : pyval -> string) (universe_id place_id : Z)
    (instance_id script_content api_key : string) (w : world) :
  environ w "ROBLOX_API_KEY" = Some api_key ->
  api_key <> "" ->
  exists rs : list request,
    calls (snd (update_script py_repr universe_id place_id instance_id
                  script_content w)) = (calls w ++ rs)%list /\
    Forall (well_addressed api_key) rs.
Proof.
  intros Henv Hkey.
  destruct (update_script_trace py_repr universe_id place_id instance_id
              script_content api_key w Henv Hkey)
    as (p & n & s & _ & _ & Hc & _).
  eexists. split; [exact Hc | ].
  constructor.
  - split; [exact (prefix_base _) | split; reflexivity].
  - apply Forall_forall. intros q Hq. apply repeat_spec in Hq. subst q.
    split; [exact (prefix_base _) | split; reflexivity].
Qed.

Lemma update_script_well_addressed_witness :
  environ Scenario.done_at_third "ROBLOX_API_KEY" = Some "secret" /\
  "secret" <> "" /\
  exists rs : list request,
    calls (snd (update_script Scenario.repr_by_type 1 2 "id" "print(1)"
                  Scenario.done_at_third)) =
      (calls Scenario.done_at_third ++ rs)%list /\
    Forall (well_addressed "secret") rs.
Proof.
  split; [reflexivity | split; [discriminate | ]].
  apply update_script_well_addressed; [reflexivity | discriminate].
Defined.

(** X19: the handler keeps nothing between invocations: with a credential,
    two invocations with the same arguments, one after the other, send two
    PATCH requests. *)
Theorem update_script_twice_two_patches
    (py_repr : pyval -> string) (universe_id place_id : Z)
    (instance_id script_content api_key : string) (w : world) :
  environ w "ROBLOX_API_KEY" = Some api_key ->
  api_key <> "" ->
  count_patch (calls (update_script_twice py_repr universe_id place_id instance_id
                        script_content w)) =
  (count_patch (calls w) + 2)%nat.
Proof.
  intros Henv Hkey. unfold update_script_twice.
  destruct (update_script_trace py_repr universe_id place_id instance_id
              script_content api_key w Henv Hkey)
    as (p1 & n1 & s1 & _ & _ & Hc1 & _ & He1 & _).
  set (w1 := snd (update_script py_repr universe_id place_id instance_id
                    script_content w)) in *.
  assert (Henv1 : environ w1 "ROBLOX_API_KEY" = Some api_key)
    by (rewrite He1; exact Henv).
  destruct (update_script_trace py_repr universe_id place_id instance_id
              script_content api_key w1 Henv1 Hkey)
    as (p2 & n2 & s2 & _ & _ & Hc2 & _).
  rewrite Hc2, Hc1.
  rewrite !count_patch_app.
  assert (Hone : forall p n,
    count_patch
      (update_request api_key universe_id place_id instance_id script_content
       :: repeat (poll_request py_repr api_key p) n) = 1%nat).
  { intros p n.
    change (count_patch
              ([update_request api_key universe_id place_id instance_id
                  script_content]
               ++ repeat (poll_request py_repr api_key p) n) = 1%nat).
    rewrite count_patch_app, count_patch_polls; reflexivity. }
  rewrite !Hone. lia.
Qed.

Lemma update_script_twice_two_patches_witness :
  environ Scenario.done_without_data "ROBLOX_API_KEY" = Some "secret" /\
  "secret" <> "" /\
  count_patch (calls (update_script_twice Scenario.repr_by_type 1 2 "id" "print(1)"
                        Scenario.done_without_data)) =
  (count_patch (calls Scenario.done_without_data) + 2)%nat.
Proof.
  split; [reflexivity | split; [discriminate | ]].
  apply (update_script_twice_two_patches Scenario.repr_by_type 1 2 "id" "print(1)"
           "secret"); [reflexivity | discriminate].
Defined.

(** X20: the whole workflow on a successful update: with a credential,
    the PATCH accepted with an operation path, [k] polls (fewer than ten)
    that find the operation not done or fail, and a next poll whose envelope
    is done and has a ["response"], the handler returns
    ["Script updated successfully! Final Response: "] followed by [str] of
    the response, having sent the PATCH and [k + 1] GETs and slept [k] times
    5. *)
Theorem update_script_completes
    (py_repr : pyval -> string) (universe_id place_id : Z)
    (instance_id script_content api_key : string) (w : world)
    (d e : list (string * pyval)) (x : pyval) (k : nat) :
  environ w "ROBLOX_API_KEY" = Some api_key ->
  api_key <> "" ->
  executor_value
    (remote w (calls w)
       (update_request api_key universe_id place_id instance_id script_content))
    = PDict d ->
  truthy (dict_get d "path") = true ->
  (k < 10)%nat ->
  (forall j, (j < k)%nat ->
     envelope_or_absent
       (attempt
          (after_send w
             (update_request api_key universe_id place_id instance_id
                script_content) [])
          (poll_request py_repr api_key (dict_get d "path")) j) = true /\
     completed
       (attempt
          (after_send w
             (update_request api_key universe_id place_id instance_id
                script_content) [])
          (poll_request py_repr api_key (dict_get d "path")) j) = false) ->
  attempt
    (after_send w
       (update_request api_key universe_id place_id instance_id script_content) [])
    (poll_request py_repr api_key (dict_get d "path")) k = PDict e ->
  truthy (dict_get e "done") = true ->
  lookup "response" e = Some x ->
  exists w',
    update_script py_repr universe_id place_id instance_id script_content w =
    (Returned ("Script updated successfully! Final Response: " ++ py_str py_repr x),
     w') /\
    calls w' =
      (calls w
         ++ update_request api_key universe_id place_id instance_id script_content
         :: repeat (poll_request py_repr api_key (dict_get d "path")) (S k))%list /\
    sleeps w' = (sleeps w ++ repeat default_delay k)%list.
Proof.
  intros Henv Hkey Hpatch Hpath Hk Hbefore Hat Hdone Hresp.
  set (rq := update_request api_key universe_id place_id instance_id script_content)
    in *.
  set (w1 := after_send w rq (executor_lines (remote w (calls w) rq))).
  assert (Hrun1 : make_roblox_request api_key "PATCH"
            (instance_url universe_id place_id instance_id)
            (patch_data script_content) false w = (Returned (PDict d), w1)).
  { rewrite (make_roblox_request_patch _ "PATCH" _ _ _ _ eq_refl).
    change (patch_request api_key (instance_url universe_id place_id instance_id)
              (patch_data script_content)) with rq.
    rewrite Hpatch. reflexivity. }
  assert (Hc : completed
                 (attempt w1 (poll_request py_repr api_key (dict_get d "path")) k)
               = true).
  { change (attempt w1 (poll_request py_repr api_key (dict_get d "path")) k)
      with (attempt (after_send w rq [])
              (poll_request py_repr api_key (dict_get d "path")) k).
    rewrite Hat. cbn [completed].
    rewrite (lookup_truthy e "done" Hdone), Hdone. reflexivity. }
  destruct (poll_loop_first_done api_key
              (ROBLOX_API_BASE ++ "/" ++ py_str py_repr (dict_get d "path"))
              default_delay k (Z.to_nat default_retries) w1 Hk Hbefore Hc)
    as (w2 & Hpoll & Hcalls & Hsleeps).
  change (attempt w1 _ k)
    with (attempt (after_send w rq [])
            (poll_request py_repr api_key (dict_get d "path")) k) in Hpoll.
  rewrite Hat in Hpoll.
  exists w2. split; [ | split].
  - rewrite (update_script_polled py_repr _ _ _ _ api_key w w1 w2 d (PDict e)
               Henv Hkey Hrun1 Hpath Hpoll).
    apply outcome_message_response; assumption.
  - rewrite Hcalls. unfold w1. cbn [after_send calls].
    rewrite <- app_assoc. reflexivity.
  - rewrite Hsleeps. reflexivity.
Qed.

Lemma done_at_third_before (j : nat) :
  (j < 2)%nat ->
  envelope_or_absent
    (attempt
       (after_send Scenario.done_at_third
          (update_request "secret" 1 2 "id" "print(1)") [])
       (poll_request Scenario.repr_by_type "secret"
          (dict_get [("path", PStr "operations/123")] "path")) j) = true /\
  completed
    (attempt
       (after_send Scenario.done_at_third
          (update_request "secret" 1 2 "id" "print(1)") [])
       (poll_request Scenario.repr_by_type "secret"
          (dict_get [("path", PStr "operations/123")] "path")) j) = false.
Proof.
  destruct j as [ | [ | j]]; intros Hj; [split; reflexivity | split; reflexivity | lia].
Qed.

Lemma update_script_completes_witness :
  exists w',
    update_script Scenario.repr_by_type 1 2 "id" "print(1)" Scenario.done_at_third =
    (Returned "Script updated successfully! Final Response: <dict>", w') /\
    calls w' =
      (calls Scenario.done_at_third
         ++ update_request "secret" 1 2 "id" "print(1)"
         :: repeat (poll_request Scenario.repr_by_type "secret"
                      (PStr "operations/123")) 3)%list /\
    sleeps w' = (sleeps Scenario.done_at_third ++ repeat default_delay 2)%list.
Proof.
  apply (update_script_completes Scenario.repr_by_type 1 2 "id" "print(1)" "secret"
           Scenario.done_at_third [("path", PStr "operations/123")]
           [("done", PBool true); ("response", PDict [("status", PStr "ok")])]
           (PDict [("status", PStr "ok")]) 2).
  - reflexivity.
  - discriminate.
  - reflexivity.
  - reflexivity.
  - lia.
  - exact done_at_third_before.
  - reflexivity.
  - reflexivity.
  - reflexivity.
Defined.

(** ** The poller on arbitrary replies *)

(** A reply that is neither a completed envelope nor truthy without [get]
    lets the poller go on. *)
Lemma pending_of (v : pyval) :
  completed v = false -> truthy_without_get v = false -> pending v = true.
Proof.
  unfold completed, truthy_without_get, pending.
  destruct v as [ | b | z | f | s | l | d]; intros Hc Hg;
    try (rewrite andb_true_r in Hg; rewrite Hg; reflexivity).
  destruct (truthy (PDict d)); [ | reflexivity].
  cbn [andb] in Hc. rewrite Hc. reflexivity.
Qed.

Section PollerAnyReply.

Variables (api_key url : string) (delay : Z).

Let r : request := get_request api_key url.

Lemma poll_loop_first_completed (k : nat) :
  forall (n : nat) (w : world),
    (k < n)%nat ->
    (forall j, (j < k)%nat -> pending (attempt w r j) = true) ->
    completed (attempt w r k) = true ->
    exists w',
      poll_loop api_key url delay n w = (Returned (attempt w r k), w') /\
      calls w' = (calls w ++ repeat r (S k))%list /\
      sleeps w' = (sleeps w ++ repeat delay k)%list.
Proof.
  induction k as [ | k IH]; intros n w Hlt Hbefore Hdone.
  - destruct n as [ | n]; [lia | ].
    rewrite (poll_loop_completed api_key url delay n w Hdone).
    eexists. split; [reflexivity | ].
    cbn [after_send calls sleeps repeat]. rewrite app_nil_r. split; reflexivity.
  - destruct n as [ | n]; [lia | ].
    rewrite (poll_loop_goes_on api_key url delay n w (Hbefore 0%nat ltac:(lia))).
    set (w1 := after_sleep _ _).
    destruct (IH n w1) as (w' & Hrun & Hcalls & Hsleeps).
    + lia.
    + intros j Hj. unfold w1. rewrite (attempt_shift api_key url delay).
      apply Hbefore. lia.
    + unfold w1. rewrite (attempt_shift api_key url delay). exact Hdone.
    + exists w'. unfold w1 in Hrun, Hcalls, Hsleeps.
      rewrite (attempt_shift api_key url delay) in Hrun.
      cbn [after_sleep after_send calls sleeps] in Hcalls, Hsleeps.
      rewrite <- app_assoc in Hcalls, Hsleeps.
      repeat split; assumption.
Qed.

End PollerAnyReply.

(** C5, as the code has it: at the first attempt, among the [retries]
    attempts, whose envelope is present with a truthy ["done"], the poller
    returns that envelope at once, provided no reply before it is truthy
    without being a [dict] (on such a reply [.get] raises): with [k] attempts
    before it, it has sent [k + 1] requests and slept [k] times, so it
    neither sleeps after that attempt nor calls the executor again; for
    [k = 0] it has not slept at all. *)
Theorem poll_for_results_first_done
    (py_repr : pyval -> string) (api_key : string) (operation_path : pyval)
    (retries delay : Z) (w : world) (k : nat) :
  (k < Z.to_nat retries)%nat ->
  (forall j, (j < k)%nat ->
     completed (attempt w (poll_request py_repr api_key operation_path) j) = false /\
     truthy_without_get (attempt w (poll_request py_repr api_key operation_path) j)
       = false) ->
  completed (attempt w (poll_request py_repr api_key operation_path) k) = true ->
  exists w',
    poll_for_results py_repr api_key operation_path retries delay w =
    (Returned (attempt w (poll_request py_repr api_key operation_path) k), w') /\
    calls w' =
      (calls w ++ repeat (poll_request py_repr api_key operation_path) (S k))%list /\
    sleeps w' = (sleeps w ++ repeat delay k)%list.
Proof.
  intros Hk Hbefore Hdone. unfold poll_for_results.
  apply (poll_loop_first_completed api_key _ delay k _ w Hk); [ | exact Hdone].
  intros j Hj. destruct (Hbefore j Hj) as [Hc Hg]. exact (pending_of _ Hc Hg).
Qed.

Lemma poll_for_results_first_done_witness :
  (2 < Z.to_nat default_retries)%nat /\
  (forall j, (j < 2)%nat ->
     completed
       (attempt Edge.slow_start
          (poll_request Scenario.repr_by_type "secret" (PStr "operations/123")) j)
       = false /\
     truthy_without_get
       (attempt Edge.slow_start
          (poll_request Scenario.repr_by_type "secret" (PStr "operations/123")) j)
       = false) /\
  completed
    (attempt Edge.slow_start
       (poll_request Scenario.repr_by_type "secret" (PStr "operations/123")) 2)
    = true /\
  exists w',
    poll_for_results Scenario.repr_by_type "secret" (PStr "operations/123")
      default_retries default_delay Edge.slow_start =
    (Returned
       (attempt Edge.slow_start
          (poll_request Scenario.repr_by_type "secret" (PStr "operations/123")) 2),
     w') /\
    calls w' =
      (calls Edge.slow_start
         ++ repeat (poll_request Scenario.repr_by_type "secret"
                      (PStr "operations/123")) 3)%list /\
    sleeps w' = (sleeps Edge.slow_start ++ repeat default_delay 2)%list.
Proof.
  assert (Hbefore : forall j, (j < 2)%nat ->
     completed
       (attempt Edge.slow_start
          (poll_request Scenario.repr_by_type "secret" (PStr "operations/123")) j)
       = false /\
     truthy_without_get
       (attempt Edge.slow_start
          (poll_request Scenario.repr_by_type "secret" (PStr "operations/123")) j)
       = false).
  { intros [ | [ | j]] Hj; [split; reflexivity | split; reflexivity | lia]. }
  split; [vm_compute; lia | split; [exact Hbefore | split; [reflexivity | ]]].
  apply (poll_for_results_first_done Scenario.repr_by_type "secret"
           (PStr "operations/123") default_retries default_delay
           Edge.slow_start 2).
  - vm_compute; lia.
  - exact Hbefore.
  - reflexivity.
Defined.

(** C5, as stated, fails: the first poll is answered by the array [[1]] and
    the second by a done envelope.  The second attempt is the first whose
    envelope is present with a truthy ["done"], yet the poller does not
    return it: it raises at the first attempt. *)
Lemma poll_for_results_first_done_after_array :
  completed
    (attempt Edge.array_then_done
       (poll_request Scenario.repr_by_type "secret" (PStr "operations/123")) 0)
    = false /\
  completed
    (attempt Edge.array_then_done
       (poll_request Scenario.repr_by_type "secret" (PStr "operations/123")) 1)
    = true /\
  (1 < Z.to_nat default_retries)%nat /\
  fst (poll_for_results Scenario.repr_by_type "secret" (PStr "operations/123")
         default_retries default_delay Edge.array_then_done) =
  Raised (AttributeError "'list' object has no attribute 'get'") /\
  fst (poll_for_results Scenario.repr_by_type "secret" (PStr "operations/123")
         default_retries default_delay Edge.array_then_done) <>
  Returned
    (attempt Edge.array_then_done
       (poll_request Scenario.repr_by_type "secret" (PStr "operations/123")) 1).
Proof.
  split; [reflexivity | split; [reflexivity | split; [vm_compute; lia | ]]].
  split; [reflexivity | vm_compute; discriminate].
Qed.

(** C6, as the code has it: when none of the replies to the polls is an
    envelope with a truthy ["done"], and none is truthy without being a
    [dict], the poller terminates after exactly [retries] executor calls (one
    request each) and as many delays, and returns [None]; with the defaults,
    10 calls and 10 delays of 5. *)
Theorem poll_for_results_exhausted
    (py_repr : pyval -> string) (api_key : string) (operation_path : pyval)
    (retries delay : Z) (w : world) :
  (forall j, (j < Z.to_nat retries)%nat ->
     completed (attempt w (poll_request py_repr api_key operation_path) j) = false /\
     truthy_without_get (attempt w (poll_request py_repr api_key operation_path) j)
       = false) ->
  exists w',
    poll_for_results py_repr api_key operation_path retries delay w =
    (Returned PNone, w') /\
    calls w' =
      (calls w ++ repeat (poll_request py_repr api_key operation_path)
                    (Z.to_nat retries))%list /\
    sleeps w' = (sleeps w ++ repeat delay (Z.to_nat retries))%list.
Proof.
  intros Hall. unfold poll_for_results.
  apply (poll_loop_all_pending api_key _ delay _ w).
  intros j Hj. destruct (Hall j Hj) as [Hc Hg]. exact (pending_of _ Hc Hg).
Qed.

Lemma never_done_attempts (j : nat) :
  completed
    (attempt Scenario.never_done
       (poll_request Scenario.repr_by_type "secret" (PStr "operations/123")) j)
    = false /\
  truthy_without_get
    (attempt Scenario.never_done
       (poll_request Scenario.repr_by_type "secret" (PStr "operations/123")) j)
    = false.
Proof. split; reflexivity. Qed.

Lemma poll_for_results_exhausted_witness :
  (forall j, (j < Z.to_nat default_retries)%nat ->
     completed
       (attempt Scenario.never_done
          (poll_request Scenario.repr_by_type "secret" (PStr "operations/123")) j)
       = false /\
     truthy_without_get
       (attempt Scenario.never_done
          (poll_request Scenario.repr_by_type "secret" (PStr "operations/123")) j)
       = false) /\
  exists w',
    poll_for_results Scenario.repr_by_type "secret" (PStr "operations/123")
      default_retries default_delay Scenario.never_done = (Returned PNone, w') /\
    calls w' =
      (calls Scenario.never_done
         ++ repeat (poll_request Scenario.repr_by_type "secret"
                      (PStr "operations/123")) (Z.to_nat default_retries))%list /\
    sleeps w' =
      (sleeps Scenario.never_done
         ++ repeat default_delay (Z.to_nat default_retries))%list.
Proof.
  split.
  - intros j _. apply never_done_attempts.
  - apply (poll_for_results_exhausted Scenario.repr_by_type "secret"
             (PStr "operations/123") default_retries default_delay
             Scenario.never_done).
    intros j _. apply never_done_attempts.
Defined.

(** C6, as stated, fails: every poll is answered by the array [[1]], so no
    reply is an envelope with a truthy ["done"]; the poller does not make
    its ten calls and return [None], it raises after the first call. *)
Lemma poll_for_results_exhausted_array_reply :
  (forall j,
     completed
       (attempt Scenario.array_reply
          (poll_request Scenario.repr_by_type "secret" (PStr "operations/123")) j)
     = false) /\
  exists w',
    poll_for_results Scenario.repr_by_type "secret" (PStr "operations/123")
      default_retries default_delay Scenario.array_reply =
    (Raised (AttributeError "'list' object has no attribute 'get'"), w') /\
    List.length (calls w') = 1%nat /\
    sleeps w' = [].
Proof.
  split.
  - intros j. reflexivity.
  - eexists. split; [vm_compute; reflexivity | split; reflexivity].
Qed.
